(** * AutoSales dashboard (app.py): column mapping, time bucketing, history

    A shallow embedding of the request handlers of [app.py].

    - A pandas [DataFrame] is a list of column names plus a list of rows; a
      row maps column names to cells.  Column assignment [df[c] = s]
      overwrites an existing column of that name and appends a new one
      otherwise, so derived columns ("total", "product", "quantity", ...)
      share a name space with the columns of the uploaded CSV.
    - float64 values are exact rationals ([Q]); NaN and NaT are the cell
      [NaN].  Rounding and infinities are outside the model; numeric results
      are compared with [==].
    - [pd.to_numeric] on text and [pd.to_datetime] without a format belong
      to pandas: the pipeline is parametrised by them, and a plain decimal
      reader and an ISO date reader instantiate them for the scenarios.
    - Module-level globals and the two JSON files are fields of an explicit
      [World]; file writes take their outcome from the environment. *)

From Stdlib Require Import ZArith QArith Qround Qabs List String Ascii Bool Lia.
From Stdlib Require Import Lqa.
From Stdlib Require Import Sorting.Sorted Sorting.Permutation.
From Stdlib Require Import DecimalString.
From Stdlib Require Floats.PrimFloat.
Import ListNotations.

Local Open Scope string_scope.
Local Open Scope Z_scope.

(* ------------------------------------------------------------------ *)
(** ** Python strings: [str.strip], [str.lower], [in] *)

Module PyStr.

(** Characters removed by [str.strip()] (ASCII part of [str.isspace]). *)
Definition is_space (c : ascii) : bool :=
  let n := nat_of_ascii c in
  ((9 <=? n) && (n <=? 13) || (28 <=? n) && (n <=? 32))%nat.

(** [str.lower] on one character: ASCII letters; any other character is
    left as it is. *)
Definition lower_ascii (c : ascii) : ascii :=
  let n := nat_of_ascii c in
  if ((65 <=? n) && (n <=? 90))%nat then ascii_of_nat (n + 32) else c.

Fixpoint lower (s : string) : string :=
  match s with
  | EmptyString => EmptyString
  | String c s' => String (lower_ascii c) (lower s')
  end.

Fixpoint lstrip (s : string) : string :=
  match s with
  | EmptyString => EmptyString
  | String c s' => if is_space c then lstrip s' else s
  end.

Fixpoint rev_string (acc s : string) : string :=
  match s with
  | EmptyString => acc
  | String c s' => rev_string (String c acc) s'
  end.

Definition rstrip (s : string) : string :=
  rev_string EmptyString (lstrip (rev_string EmptyString s)).

Definition strip (s : string) : string := rstrip (lstrip s).

(** [not s] on a string: true exactly for the empty string. *)
Definition is_empty (s : string) : bool :=
  match s with EmptyString => true | _ => false end.

(** [name in columns] for a list of column names. *)
Definition mem (name : string) (columns : list string) : bool :=
  existsb (String.eqb name) columns.

Fixpoint all_space (s : string) : bool :=
  match s with
  | EmptyString => true
  | String c s' => is_space c && all_space s'
  end.

End PyStr.

(* ------------------------------------------------------------------ *)
(** ** Cells, rows and data frames *)

(** A [pd.Timestamp], as far as [.dt.to_period("M")] looks at it. *)
Record Timestamp := mkTimestamp { ts_year : Z; ts_month : Z; ts_day : Z }.

(** One cell of a frame.  [Per n] is a monthly [pd.Period] with ordinal
    [n = 12 * year + (month - 1)]. *)
Inductive Cell :=
| NaN
| Num (q : Q)
| Str (s : string)
| Time (t : Timestamp)
| Per (n : Z).

Definition notna (c : Cell) : bool :=
  match c with NaN => false | _ => true end.

Definition Series := list Cell.

Definition DataRow := list (string * Cell).

Fixpoint row_get (r : DataRow) (name : string) : Cell :=
  match r with
  | [] => NaN
  | (k, v) :: r' => if String.eqb k name then v else row_get r' name
  end.

Fixpoint row_set (r : DataRow) (name : string) (v : Cell) : DataRow :=
  match r with
  | [] => [(name, v)]
  | (k, v') :: r' =>
      if String.eqb k name then (k, v) :: r' else (k, v') :: row_set r' name v
  end.

Record DataFrame := mkDataFrame { columns : list string; rows : list DataRow }.

(** [df[name]] *)
Definition getitem (df : DataFrame) (name : string) : Series :=
  map (fun r => row_get r name) (rows df).

(** Row-wise assignment of a series; a series that runs out leaves NaN, as
    index alignment does. *)
Fixpoint assign (name : string) (rs : list DataRow) (s : Series) : list DataRow :=
  match rs with
  | [] => []
  | r :: rs' =>
      match s with
      | [] => row_set r name NaN :: assign name rs' []
      | c :: s' => row_set r name c :: assign name rs' s'
      end
  end.

(** [df[name] = s] *)
Definition setitem (df : DataFrame) (name : string) (s : Series) : DataFrame :=
  {| columns := if PyStr.mem name (columns df) then columns df
                else columns df ++ [name];
     rows := assign name (rows df) s |}.

(** [df.columns = df.columns.str.strip().str.lower()].  Should two headers
    normalise to one name, [df[name]] reads the first of them here. *)
Definition normalize_name (s : string) : string := PyStr.lower (PyStr.strip s).

Definition rename_row (r : DataRow) : DataRow :=
  map (fun kv => (normalize_name (fst kv), snd kv)) r.

Definition normalize_columns (df : DataFrame) : DataFrame :=
  {| columns := map normalize_name (columns df);
     rows := map rename_row (rows df) |}.

(** [df.dropna(subset=names)] *)
Definition row_complete (names : list string) (r : DataRow) : bool :=
  forallb (fun n => notna (row_get r n)) names.

Definition dropna (names : list string) (df : DataFrame) : DataFrame :=
  {| columns := columns df; rows := filter (row_complete names) (rows df) |}.

(** [df[mask]] with the mask computed per row. *)
Definition select (p : DataRow -> bool) (df : DataFrame) : DataFrame :=
  {| columns := columns df; rows := filter p (rows df) |}.

(** [df.empty]; every frame here has at least one column. *)
Definition empty (df : DataFrame) : bool :=
  match rows df with [] => true | _ => false end.

Definition nrows (df : DataFrame) : nat := List.length (rows df).

(* ------------------------------------------------------------------ *)
(** ** Series operations used by the handlers *)

(** The value a cell contributes to [Series.sum()]: NaN is skipped. *)
Definition cell_value (c : Cell) : Q :=
  match c with Num q => q | _ => 0%Q end.

(** [Series.sum()] *)
Definition series_sum (s : Series) : Q :=
  fold_right (fun c acc => (cell_value c + acc)%Q) 0%Q s.

Definition qsum (l : list Q) : Q := fold_right Qplus 0%Q l.

(** [Series.notna().any()] *)
Definition any_notna (s : Series) : bool := existsb notna s.

(** [a.fillna(b)] for two series over the same rows. *)
Fixpoint fillna (a b : Series) : Series :=
  match a, b with
  | x :: a', y :: b' => (if notna x then x else y) :: fillna a' b'
  | _, _ => a
  end.

(** [a * b] on numeric series: NaN as soon as one operand is. *)
Definition cell_mul (x y : Cell) : Cell :=
  match x, y with
  | Num p, Num q => Num (p * q)
  | _, _ => NaN
  end.

Fixpoint series_mul (a b : Series) : Series :=
  match a, b with
  | x :: a', y :: b' => cell_mul x y :: series_mul a' b'
  | _, _ => []
  end.

(** [float -> int] as [astype(int)] does it: truncation toward zero. *)
Definition trunc (q : Q) : Z := Z.quot (Qnum q) (Zpos (Qden q)).

Definition astype_int (c : Cell) : Z :=
  match c with Num q => trunc q | _ => 0 end.

(** [(s >= 1) & (s <= 12)], cell by cell; a comparison with NaN is False. *)
Definition month_in_range (c : Cell) : bool :=
  match c with
  | Num q => Qle_bool 1 q && Qle_bool q 12
  | _ => false
  end.

(** *** Month names: [calendar.month_abbr], [format="%b"], [format="%B"] *)

Definition month_abbr_table : list string :=
  ["Jan"; "Feb"; "Mar"; "Apr"; "May"; "Jun";
   "Jul"; "Aug"; "Sep"; "Oct"; "Nov"; "Dec"].

Definition month_name_table : list string :=
  ["January"; "February"; "March"; "April"; "May"; "June";
   "July"; "August"; "September"; "October"; "November"; "December"].

(** [calendar.month_abbr[m]]; entry 0 is the empty string, and an index
    past the table has no entry (it never arises below). *)
Definition month_abbr (m : Z) : string :=
  if m =? 0 then ""
  else nth (Z.to_nat (m - 1)) month_abbr_table "".

(** Position (from 1) of the first name equal to [s] up to case. *)
Fixpoint find_month (s : string) (names : list string) (m : Z) : option Z :=
  match names with
  | [] => None
  | n :: names' =>
      if String.eqb (PyStr.lower n) (PyStr.lower s) then Some m
      else find_month s names' (m + 1)
  end.

(** [pd.to_datetime(c.astype(str), format=..., errors="coerce").dt.month]
    for one cell.  Only text can spell a month: the text of a number and
    of NaN does not. *)
Definition strptime_month (names : list string) (c : Cell) : Cell :=
  match c with
  | Str s => match find_month s names 1 with
             | Some m => Num (inject_Z m)
             | None => NaN
             end
  | _ => NaN
  end.

(** *** Grouping *)

Section GroupBy.
Context {K : Type} (cmp : K -> K -> comparison).

(** Add [v] to the group of [k], keeping the groups in key order. *)
Fixpoint add_group (k : K) (v : Q) (g : list (K * Q)) : list (K * Q) :=
  match g with
  | [] => [(k, v)]
  | (k', v') :: g' =>
      match cmp k k' with
      | Eq => (k', (v' + v)%Q) :: g'
      | Lt => (k, v) :: g
      | Gt => (k', v') :: add_group k v g'
      end
  end.

(** [groupby(keys)[col].sum()]: one group per key, in key order
    ([sort=True]), each with the sum of its values. *)
Definition groupby_sum (keys : list K) (vals : Series) : list (K * Q) :=
  fold_left (fun g kv => add_group (fst kv) (cell_value (snd kv)) g)
            (combine keys vals) [].

Fixpoint insert_sorted (kv : K * Q) (g : list (K * Q)) : list (K * Q) :=
  match g with
  | [] => [kv]
  | kv' :: g' =>
      match cmp (fst kv) (fst kv') with
      | Gt => kv' :: insert_sorted kv g'
      | _ => kv :: g
      end
  end.

(** [.sort_index()] *)
Definition sort_index (g : list (K * Q)) : list (K * Q) :=
  fold_right insert_sorted [] g.

Fixpoint idxmax_from (best : K * Q) (g : list (K * Q)) : K :=
  match g with
  | [] => fst best
  | kv :: g' =>
      if Qle_bool (snd kv) (snd best) then idxmax_from best g'
      else idxmax_from kv g'
  end.

(** [.idxmax()]: the label of the first maximum; raises on no groups. *)
Definition idxmax (g : list (K * Q)) : option K :=
  match g with
  | [] => None
  | kv :: g' => Some (idxmax_from kv g')
  end.
End GroupBy.

(** Order of group keys in a product column: numbers by value, text by
    code point.  A column read from CSV holds one kind of value. *)
Definition cell_rank (c : Cell) : Z :=
  match c with NaN => 0 | Num _ => 1 | Str _ => 2 | Time _ => 3 | Per _ => 4 end.

Definition timestamp_compare (a b : Timestamp) : comparison :=
  match ts_year a ?= ts_year b with
  | Eq => match ts_month a ?= ts_month b with
          | Eq => ts_day a ?= ts_day b
          | c => c
          end
  | c => c
  end.

Definition cell_compare (a b : Cell) : comparison :=
  match a, b with
  | Num p, Num q => (p ?= q)%Q
  | Str s, Str t => String.compare s t
  | Time s, Time t => timestamp_compare s t
  | Per m, Per n => m ?= n
  | _, _ => cell_rank a ?= cell_rank b
  end.

(** *** Labels *)

Definition string_of_Z (z : Z) : string := NilZero.string_of_int (Z.to_int z).

(** [str(period)] for a monthly period: "YYYY-MM". *)
Definition pad_left (width : nat) (s : string) : string :=
  let fix zeros (n : nat) : string :=
    match n with O => "" | S n' => String "0" (zeros n') end in
  zeros (width - String.length s)%nat ++ s.

Definition period_ordinal (year month : Z) : Z := 12 * year + (month - 1).

Definition period_label (n : Z) : string :=
  pad_left 4 (string_of_Z (n / 12)) ++ "-" ++ pad_left 2 (string_of_Z (n mod 12 + 1)).

(** [Timestamp.to_period("M")] *)
Definition to_period_M (c : Cell) : Z :=
  match c with
  | Time t => period_ordinal (ts_year t) (ts_month t)
  | Per n => n
  | _ => 0
  end.

(* ------------------------------------------------------------------ *)
(** ** The request form, the responses and the world *)

(** [request.form]: a field is absent or carries text. *)
Record Form := mkForm {
  form_time_mode : option string;
  form_product_col : option string;
  form_total_col : option string;
  form_quantity_col : option string;
  form_price_col : option string;
  form_date_col : option string;
  form_year_col : option string;
  form_month_col : option string
}.

(** [request.form.get(field, default)] *)
Definition form_get (field : option string) (default : string) : string :=
  match field with Some s => s | None => default end.

Inductive TimeMode := ModeDate | ModeYearMonth | ModeYear | ModeMonth.

Definition time_mode_name (mode : TimeMode) : string :=
  match mode with
  | ModeDate => "date"
  | ModeYearMonth => "year_month"
  | ModeYear => "year"
  | ModeMonth => "month"
  end.

(** Lines 326-328: anything but the four names becomes "date". *)
Definition read_time_mode (form : Form) : TimeMode :=
  let s := PyStr.lower (PyStr.strip (form_get (form_time_mode form) "date")) in
  if String.eqb s "year_month" then ModeYearMonth
  else if String.eqb s "year" then ModeYear
  else if String.eqb s "month" then ModeMonth
  else ModeDate.

(** The [defaults] dictionary: the seven role names as submitted. *)
Record Mapping := mkMapping {
  product_col : string;
  total_col : string;
  quantity_col : string;
  price_col : string;
  date_col : string;
  year_col : string;
  month_col : string
}.

Definition read_role (field : option string) : string :=
  PyStr.lower (PyStr.strip (form_get field "")).

(** Lines 330-346 *)
Definition read_mapping (form : Form) : Mapping :=
  {| product_col := read_role (form_product_col form);
     total_col := read_role (form_total_col form);
     quantity_col := read_role (form_quantity_col form);
     price_col := read_role (form_price_col form);
     date_col := read_role (form_date_col form);
     year_col := read_role (form_year_col form);
     month_col := read_role (form_month_col form) |}.

(** The error texts of [index], under the names the design gives them. *)
Definition MissingProductColumn : string :=
  "Please enter a valid product column name.".
Definition MissingRevenueColumns : string :=
  "Enter total column name, or both quantity and price column names.".
Definition NoValidRows : string :=
  "No valid rows after applying selected columns.".
Definition MissingTimeColumns (mode : TimeMode) : string :=
  match mode with
  | ModeDate => "Date mode requires a valid date column selection."
  | ModeYearMonth =>
      "Year + Month mode requires both year and month column selections."
  | ModeYear => "Year mode requires a valid year column selection."
  | ModeMonth => "Month mode requires a valid month column selection."
  end.
Definition NoTimeValuesFound : string :=
  "No valid time values found for selected columns.".

(** What [index] answers to a [process_data] post. *)
Inductive Response :=
| RenderError (error : string) (cols : list string) (defaults : Mapping)
              (selected_mode : TimeMode)
| RenderResult (revenue : Q) (product : Cell) (labels : list string)
               (values : list Q) (used_basis : TimeMode)
| Raised.

(** One element of [chart_history.json].  [entry_product] is the cell whose
    text [str(product)] the file holds, [entry_revenue] the number
    [float(revenue)]. *)
Record HistoryEntry := mkHistoryEntry {
  entry_id : string;
  entry_timestamp : string;
  entry_labels : list string;
  entry_values : list Q;
  entry_revenue : Q;
  entry_product : Cell;
  entry_time_mode : TimeMode;
  entry_filename : string
}.

(** A JSON file on disk: missing, unreadable as JSON, or holding a value. *)
Inductive File (A : Type) :=
| Absent
| Garbled
| Content (a : A).
Arguments Absent {A}.
Arguments Garbled {A}.
Arguments Content {A} a.

(** How [open(path, "w")] followed by [json.dump] ends: both succeed, the
    open raises (the file is untouched), or the dump raises after the open
    truncated the file. *)
Inductive WriteOutcome := WriteOk | OpenFails | DumpFails.

Definition write_json {A : Type} (o : WriteOutcome) (old : File A) (a : A)
  : File A * bool :=
  match o with
  | WriteOk => (Content a, true)
  | OpenFails => (old, false)
  | DumpFails => (Garbled, false)
  end.

(** The module globals and the files and directories the handlers touch. *)
Record World := mkWorld {
  UPLOAD_FOLDER : string;
  OUTPUT_FOLDER : string;
  config_file : File (string * string);
  chart_history_file : File (list HistoryEntry);
  directories : list string;
  uncreatable : list string
}.

(** What one request draws from its environment. *)
Record Env := mkEnv {
  env_uuid : string;
  env_now : string;
  env_stamp : string;
  env_history_write : WriteOutcome;
  env_config_write : WriteOutcome
}.

(* ------------------------------------------------------------------ *)
(** ** History ([load_chart_history], [save_chart_to_history]) *)

Definition load_chart_history (w : World) : list HistoryEntry :=
  match chart_history_file w with
  | Content h => h
  | _ => []
  end.

Definition set_chart_history_file (w : World) (f : File (list HistoryEntry))
  : World :=
  {| UPLOAD_FOLDER := UPLOAD_FOLDER w;
     OUTPUT_FOLDER := OUTPUT_FOLDER w;
     config_file := config_file w;
     chart_history_file := f;
     directories := directories w;
     uncreatable := uncreatable w |}.

(** Returns [entry["id"]]; a failed write is swallowed. *)
Definition save_chart_to_history (env : Env) (w : World)
    (labels : list string) (values : list Q) (revenue : Q) (product : Cell)
    (time_mode : TimeMode) (filename : string) : string * World :=
  let history := load_chart_history w in
  let entry :=
    {| entry_id := env_uuid env;
       entry_timestamp := env_now env;
       entry_labels := labels;
       entry_values := values;
       entry_revenue := revenue;
       entry_product := product;
       entry_time_mode := time_mode;
       entry_filename := filename |} in
  let history := entry :: history in
  let history := firstn 20 history in
  let (file, _) :=
    write_json (env_history_write env) (chart_history_file w) history in
  (entry_id entry, set_chart_history_file w file).

(* ------------------------------------------------------------------ *)
(** ** The aggregation pipeline of [index] (action [process_data]) *)

Section Pipeline.

(** [pd.to_numeric] on one text cell: the number it reads, if any. *)
Variable str_to_float : string -> option Q.

(** [pd.to_datetime(series, errors="coerce")]: one answer per cell, NaT
    where the cell does not read as a date. *)
Variable to_datetime : Series -> list (option Timestamp).

Definition to_numeric_cell (c : Cell) : Cell :=
  match c with
  | Num q => Num q
  | Str s => match str_to_float s with Some q => Num q | None => NaN end
  | _ => NaN
  end.

(** [pd.to_numeric(series, errors="coerce")] *)
Definition to_numeric (s : Series) : Series := map to_numeric_cell s.

Definition datetime_cell (o : option Timestamp) : Cell :=
  match o with Some t => Time t | None => NaN end.

(** Lines 152-156 *)
Definition parse_month_to_number (month_series : Series) : Series :=
  let numeric := to_numeric month_series in
  let short_name := map (strptime_month month_abbr_table) month_series in
  let full_name := map (strptime_month month_name_table) month_series in
  fillna (fillna numeric short_name) full_name.

(** Lines 348-388: the product and revenue checks, the derived columns
    and the first [dropna].  [cols] is the list [columns] taken before
    any column is derived. *)
Definition derive (cols : list string) (m : Mapping) (df : DataFrame)
  : string + DataFrame :=
  if PyStr.is_empty (product_col m) || negb (PyStr.mem (product_col m) cols)
  then inl MissingProductColumn
  else
    let with_total :=
      if negb (PyStr.is_empty (total_col m)) && PyStr.mem (total_col m) cols
      then Some (setitem df "total" (to_numeric (getitem df (total_col m))))
      else if PyStr.mem (quantity_col m) cols && PyStr.mem (price_col m) cols
      then Some (setitem df "total"
                   (series_mul (to_numeric (getitem df (quantity_col m)))
                               (to_numeric (getitem df (price_col m)))))
      else None in
    match with_total with
    | None => inl MissingRevenueColumns
    | Some df =>
        let df := setitem df "product" (getitem df (product_col m)) in
        let df :=
          if PyStr.mem (quantity_col m) cols
          then setitem df "quantity" (to_numeric (getitem df (quantity_col m)))
          else df in
        let df := dropna ["product"; "total"] df in
        if empty df then inl NoValidRows else inr df
    end.

(** What the four branches hand on: the final [chart_df], the labels and
    the values. *)
Definition Chart : Type := DataFrame * list string * list Q.

Definition chart_of (chart_df : DataFrame) (label : Z -> string)
    (grouped : list (Z * Q)) : Chart :=
  (chart_df, map (fun kv => label (fst kv)) grouped, map snd grouped).

(** Lines 392-406 *)
Definition bucket_date (cols : list string) (m : Mapping) (chart_df : DataFrame)
  : string + Chart :=
  if negb (PyStr.mem (date_col m) cols) then inl (MissingTimeColumns ModeDate)
  else
    let chart_df :=
      setitem chart_df "date"
        (map datetime_cell (to_datetime (getitem chart_df (date_col m)))) in
    let chart_df := dropna ["date"] chart_df in
    let grouped :=
      sort_index Z.compare
        (groupby_sum Z.compare (map to_period_M (getitem chart_df "date"))
                     (getitem chart_df "total")) in
    inr (chart_of chart_df period_label grouped).

(** Lines 408-429 *)
Definition bucket_year_month (cols : list string) (m : Mapping)
    (chart_df : DataFrame) : string + Chart :=
  if negb (PyStr.mem (year_col m) cols) || negb (PyStr.mem (month_col m) cols)
  then inl (MissingTimeColumns ModeYearMonth)
  else
    let chart_df :=
      setitem chart_df "year_num" (to_numeric (getitem chart_df (year_col m))) in
    let chart_df :=
      setitem chart_df "month_num"
              (parse_month_to_number (getitem chart_df (month_col m))) in
    let chart_df := dropna ["year_num"; "month_num"] chart_df in
    let chart_df :=
      select (fun r => month_in_range (row_get r "month_num")) chart_df in
    let chart_df :=
      setitem chart_df "period"
        (map (fun r => Per (period_ordinal
                              (astype_int (row_get r "year_num"))
                              (astype_int (row_get r "month_num"))))
             (rows chart_df)) in
    let grouped :=
      sort_index Z.compare
        (groupby_sum Z.compare (map to_period_M (getitem chart_df "period"))
                     (getitem chart_df "total")) in
    inr (chart_of chart_df period_label grouped).

(** Lines 431-445 *)
Definition bucket_year (cols : list string) (m : Mapping) (chart_df : DataFrame)
  : string + Chart :=
  if negb (PyStr.mem (year_col m) cols) then inl (MissingTimeColumns ModeYear)
  else
    let chart_df :=
      setitem chart_df "year_num" (to_numeric (getitem chart_df (year_col m))) in
    let chart_df := dropna ["year_num"] chart_df in
    let grouped :=
      sort_index Z.compare
        (groupby_sum Z.compare (map astype_int (getitem chart_df "year_num"))
                     (getitem chart_df "total")) in
    inr (chart_of chart_df string_of_Z grouped).

(** Lines 447-462 *)
Definition bucket_month (cols : list string) (m : Mapping) (chart_df : DataFrame)
  : string + Chart :=
  if negb (PyStr.mem (month_col m) cols) then inl (MissingTimeColumns ModeMonth)
  else
    let chart_df :=
      setitem chart_df "month_num"
              (parse_month_to_number (getitem chart_df (month_col m))) in
    let chart_df := dropna ["month_num"] chart_df in
    let chart_df :=
      select (fun r => month_in_range (row_get r "month_num")) chart_df in
    let grouped :=
      sort_index Z.compare
        (groupby_sum Z.compare (map astype_int (getitem chart_df "month_num"))
                     (getitem chart_df "total")) in
    inr (chart_of chart_df month_abbr grouped).

(** Lines 390-472: [chart_df = df.copy()], the branch of the time mode,
    then the check that something was bucketed. *)
Definition bucket (mode : TimeMode) (cols : list string) (m : Mapping)
    (df : DataFrame) : string + Chart :=
  let branch :=
    match mode with
    | ModeDate => bucket_date cols m df
    | ModeYearMonth => bucket_year_month cols m df
    | ModeYear => bucket_year cols m df
    | ModeMonth => bucket_month cols m df
    end in
  match branch with
  | inl e => inl e
  | inr (chart_df, labels, values) =>
      if empty chart_df || match labels with [] => true | _ => false end
      then inl NoTimeValuesFound
      else inr (chart_df, labels, values)
  end.

(** A column pandas can sum and rank: numbers and NaN only.  On a text
    column [groupby(...).sum().idxmax()] raises. *)
Definition summable (s : Series) : bool :=
  forallb (fun c => match c with NaN | Num _ => true | _ => false end) s.

Definition best_by (df : DataFrame) (col : string) : option Cell :=
  if summable (getitem df col)
  then idxmax (groupby_sum cell_compare (getitem df "product") (getitem df col))
  else None.

(** Lines 475-478; [None] stands for an exception. *)
Definition best_product (df : DataFrame) : option Cell :=
  if PyStr.mem "quantity" (columns df) && any_notna (getitem df "quantity")
  then best_by df "quantity"
  else best_by df "total".

(** [index] on [action == "process_data"], lines 323-512: the uploaded
    file has been found and read into [df].  The spreadsheet and PDF
    writers between the computation and the history record are sinks
    outside this model. *)
Definition process_data (env : Env) (w : World) (df : DataFrame) (form : Form)
  : Response * World :=
  let df := normalize_columns df in
  let cols := columns df in
  let time_mode := read_time_mode form in
  let defaults := read_mapping form in
  match derive cols defaults df with
  | inl e => (RenderError e cols defaults time_mode, w)
  | inr df =>
      match bucket time_mode cols defaults df with
      | inl e => (RenderError e cols defaults time_mode, w)
      | inr (_, labels, values) =>
          let total_revenue := series_sum (getitem df "total") in
          match best_product df with
          | None => (Raised, w)
          | Some best =>
              let excel_filename :=
                "sales_report_" ++ env_stamp env ++ ".xlsx" in
              let (_, w) :=
                save_chart_to_history env w labels values total_revenue best
                                      time_mode excel_filename in
              (RenderResult total_revenue best labels values time_mode, w)
          end
      end
  end.

End Pipeline.

(* ------------------------------------------------------------------ *)
(** ** Storage settings ([normalize_storage_path], [apply_storage_paths],
       [save_storage_config]) *)

Definition set_folders (w : World) (upload_folder output_folder : string)
  : World :=
  {| UPLOAD_FOLDER := upload_folder;
     OUTPUT_FOLDER := output_folder;
     config_file := config_file w;
     chart_history_file := chart_history_file w;
     directories := directories w;
     uncreatable := uncreatable w |}.

Definition set_config_file (w : World) (f : File (string * string)) : World :=
  {| UPLOAD_FOLDER := UPLOAD_FOLDER w;
     OUTPUT_FOLDER := OUTPUT_FOLDER w;
     config_file := f;
     chart_history_file := chart_history_file w;
     directories := directories w;
     uncreatable := uncreatable w |}.

Definition add_directory (w : World) (path : string) : World :=
  {| UPLOAD_FOLDER := UPLOAD_FOLDER w;
     OUTPUT_FOLDER := OUTPUT_FOLDER w;
     config_file := config_file w;
     chart_history_file := chart_history_file w;
     directories := path :: directories w;
     uncreatable := uncreatable w |}.

(** [os.makedirs(path, exist_ok=True)]: the flag is [false] when it raises
    (a path the file system refuses: no permission, a file in the way). *)
Definition makedirs (w : World) (path : string) : World * bool :=
  if PyStr.mem path (directories w) then (w, true)
  else if PyStr.mem path (uncreatable w) then (w, false)
  else (add_directory w path, true).

(** Lines 63-68: the globals are assigned, then the directories are made. *)
Definition apply_storage_paths (w : World) (upload_folder output_folder : string)
  : World * bool :=
  let w := set_folders w upload_folder output_folder in
  let (w, ok) := makedirs w (UPLOAD_FOLDER w) in
  if ok then makedirs w (OUTPUT_FOLDER w) else (w, false).

(** Lines 54-60 *)
Definition save_storage_config (env : Env) (w : World)
    (upload_folder output_folder : string) : World * bool :=
  let (file, ok) :=
    write_json (env_config_write env) (config_file w)
               (upload_folder, output_folder) in
  (set_config_file w file, ok).

Section Settings.

(** [os.path]: [isabs], [abspath], [join], and the directory of app.py. *)
Variable isabs : string -> bool.
Variable abspath : string -> string.
Variable join : string -> string -> string.
Variable BASE_DIR : string.

(** Lines 21-32 *)
Definition normalize_storage_path (path_value : option string)
    (fallback_name : string) : string :=
  match path_value with
  | None => join BASE_DIR fallback_name
  | Some path_value =>
      if PyStr.is_empty path_value then join BASE_DIR fallback_name
      else
        let cleaned := PyStr.strip path_value in
        if PyStr.is_empty cleaned then join BASE_DIR fallback_name
        else if isabs cleaned then abspath cleaned
        else abspath (join BASE_DIR cleaned)
  end.

End Settings.

(* ------------------------------------------------------------------ *)
(** ** Readers used in the scenarios *)

Module Readers.

Definition digit_of (c : ascii) : option Z :=
  let n := nat_of_ascii c in
  if ((48 <=? n) && (n <=? 57))%nat then Some (Z.of_nat n - 48) else None.

(** Reads a run of digits: its value on top of [acc], its length, the rest. *)
Fixpoint read_digits (s : string) (acc : Z) (len : nat) : Z * nat * string :=
  match s with
  | EmptyString => (acc, len, s)
  | String c s' =>
      match digit_of c with
      | Some d => read_digits s' (10 * acc + d) (S len)
      | None => (acc, len, s)
      end
  end.

Definition read_unsigned (s : string) : option Q :=
  let '(ip, ni, rest) := read_digits s 0 0 in
  match rest with
  | EmptyString => if (0 <? ni)%nat then Some (inject_Z ip) else None
  | String "." frac =>
      let '(fp, nf, rest') := read_digits frac 0 0 in
      if PyStr.is_empty rest' && (0 <? ni + nf)%nat
      then Some (Qred (Qmake (ip * 10 ^ Z.of_nat nf + fp)
                             (Z.to_pos (10 ^ Z.of_nat nf))))
      else None
  | _ => None
  end.

(** Plain decimal literals: blanks around, a sign, digits, a fraction. *)
Definition read_decimal (s : string) : option Q :=
  match PyStr.strip s with
  | String "-" s' => option_map Qopp (read_unsigned s')
  | String "+" s' => read_unsigned s'
  | s' => read_unsigned s'
  end.

Definition read_fixed (s : string) (start len : nat) : option Z :=
  let '(v, n, rest) := read_digits (substring start len s) 0 0 in
  if (n =? len)%nat && PyStr.is_empty rest then Some v else None.

(** Dates written YYYY-MM-DD. *)
Definition read_iso_date (s : string) : option Timestamp :=
  if negb (String.length s =? 10)%nat then None
  else
    match read_fixed s 0 4, read_fixed s 5 2, read_fixed s 8 2 with
    | Some y, Some m, Some d =>
        if String.eqb (substring 4 1 s) "-" && String.eqb (substring 7 1 s) "-"
           && (1 <=? m) && (m <=? 12) && (1 <=? d) && (d <=? 31)
        then Some (mkTimestamp y m d)
        else None
    | _, _, _ => None
    end.

Definition read_dates (s : Series) : list (option Timestamp) :=
  map (fun c => match c with Str t => read_iso_date t | _ => None end) s.

(** Rounding to two decimals. *)
Definition round_cents (q : Q) : Q :=
  Qred (inject_Z (Qfloor (q * 100 + (1 # 2))) / 100).

Definition posix_isabs (s : string) : bool :=
  match s with String "/" _ => true | _ => false end.

Definition posix_join (a b : string) : string :=
  if posix_isabs b then b else a ++ "/" ++ b.

End Readers.

(* ------------------------------------------------------------------ *)
(** ** Column suggestions ([guess_column], [index] on [read_columns]) *)

(** Lines 159-163 *)
Fixpoint guess_column (columns preferred_names : list string) : string :=
  match preferred_names with
  | [] => ""
  | name :: rest =>
      if PyStr.mem name columns then name else guess_column columns rest
  end.

(** Lines 291-299: the [defaults] offered after an upload. *)
Definition guess_defaults (columns : list string) : Mapping :=
  {| product_col := guess_column columns ["product"; "item"; "product_name"];
     total_col := guess_column columns ["total"; "amount"; "revenue"; "sales"];
     quantity_col := guess_column columns ["quantity"; "qty"; "units"];
     price_col := guess_column columns ["price"; "unit_price"; "rate"];
     date_col := guess_column columns ["date"; "order_date"; "invoice_date"];
     year_col := guess_column columns ["year"];
     month_col := guess_column columns ["month"] |}.

(** Lines 289-307: the columns and defaults rendered for a readable
    upload; the selected mode is "date". *)
Definition read_columns (df_preview : DataFrame)
  : list string * Mapping * TimeMode :=
  let df_preview := normalize_columns df_preview in
  let columns := columns df_preview in
  (columns, guess_defaults columns, ModeDate).

(** The form a browser posts back when the offered values are left as they
    are. *)
Definition form_of_defaults (mode : TimeMode) (defaults : Mapping) : Form :=
  {| form_time_mode := Some (time_mode_name mode);
     form_product_col := Some (product_col defaults);
     form_total_col := Some (total_col defaults);
     form_quantity_col := Some (quantity_col defaults);
     form_price_col := Some (price_col defaults);
     form_date_col := Some (date_col defaults);
     form_year_col := Some (year_col defaults);
     form_month_col := Some (month_col defaults) |}.

(* ------------------------------------------------------------------ *)
(** ** Reading the history back ([index] on GET, [api_chart_history],
       [api_chart_history_detail]) *)

(** [for entry in history: if entry.get("id") == chart_id: return ...] *)
Definition find_chart (chart_id : string) (history : list HistoryEntry)
  : option HistoryEntry :=
  find (fun entry => String.eqb (entry_id entry) chart_id) history.

(** Lines 633-639: the entry, or the 404 answer. *)
Definition api_chart_history_detail (w : World) (chart_id : string)
  : HistoryEntry + (string * Z) :=
  match find_chart chart_id (load_chart_history w) with
  | Some entry => inl entry
  | None => inr ("Chart not found", 404)
  end.

(** One element of the list [api_chart_history] returns. *)
Record HistorySummary := mkHistorySummary {
  summary_id : string;
  summary_timestamp : string;
  summary_revenue : Q;
  summary_product : Cell;
  summary_time_mode : TimeMode;
  summary_filename : string
}.

(** Lines 616-630 *)
Definition api_chart_history (w : World) : list HistorySummary :=
  map (fun entry =>
         {| summary_id := entry_id entry;
            summary_timestamp := entry_timestamp entry;
            summary_revenue := entry_revenue entry;
            summary_product := entry_product entry;
            summary_time_mode := entry_time_mode entry;
            summary_filename := entry_filename entry |})
      (load_chart_history w).



(* ------------------------------------------------------------------ *)
(** ** Reports ([list_reports], [build_analytics_summary],
       [download_report]) *)

(** [s.endswith(suffix)]: [suffix] is what is left of [s] from some
    position on. *)
Fixpoint endswith (s suffix : string) : bool :=
  String.eqb s suffix ||
  match s with
  | EmptyString => false
  | String _ s' => endswith s' suffix
  end.

(** One name in [os.listdir(OUTPUT_FOLDER)] with what [os.path.isfile] and
    [os.stat] say about it. *)
Record DirEntry := mkDirEntry {
  de_name : string;
  de_isfile : bool;
  de_size : Z;
  de_mtime : Q
}.

(** One element of [list_reports()]; [report_type] is "Excel" or "PDF". *)
Record Report := mkReport {
  report_name : string;
  report_size_kb : Q;
  report_updated_at : Q;
  report_type : string
}.

(** [os.path.basename] for a POSIX path: what follows the last slash. *)
Fixpoint has_slash (p : string) : bool :=
  match p with
  | EmptyString => false
  | String c p' => Ascii.eqb c "/" || has_slash p'
  end.

Fixpoint basename (p : string) : string :=
  match p with
  | EmptyString => EmptyString
  | String c p' => if has_slash p then basename p' else p
  end.

(** What [download_report] answers: the 404 page, or the file sent. *)
Inductive Download :=
| Abort404
| SendFile (directory name : string).

(** Flask's [send_from_directory(directory, name)] on a name without a
    slash: [safe_join] refuses "..", and the joined path must be a regular
    file, which the directory itself (the empty name and ".") is not. *)
Definition send_from_directory (is_file : string -> string -> bool)
    (directory name : string) : Download :=
  if String.eqb name ".." then Abort404
  else if String.eqb name "" || String.eqb name "." then Abort404
  else if is_file directory name then SendFile directory name
  else Abort404.

Section Reports.

(** [round(x, 2)] *)
Variable round2 : Q -> Q.

(** [pd.to_numeric] on text, as in the pipeline. *)
Variable str_to_float : string -> option Q.

(** [pd.read_excel(path)], [None] when it raises. *)
Variable read_excel : string -> string -> option DataFrame.

(** [filename.lower().endswith((".xlsx", ".pdf"))] *)
Definition is_report_name (filename : string) : bool :=
  endswith (PyStr.lower filename) ".xlsx" || endswith (PyStr.lower filename) ".pdf".

Definition report_of (e : DirEntry) : Report :=
  {| report_name := de_name e;
     report_size_kb := round2 (inject_Z (de_size e) / 1024);
     report_updated_at := de_mtime e;
     report_type :=
       if endswith (PyStr.lower (de_name e)) ".xlsx" then "Excel" else "PDF" |}.

(** [list.sort(key=updated_at, reverse=True)]: newest first, reports of one
    age in the order they had. *)
Fixpoint insert_report (r : Report) (rs : list Report) : list Report :=
  match rs with
  | [] => [r]
  | r' :: rs' =>
      if Qle_bool (report_updated_at r') (report_updated_at r) then r :: rs
      else r' :: insert_report r rs'
  end.

Definition sort_reports (rs : list Report) : list Report :=
  fold_right insert_report [] rs.

(** Lines 166-187, on the entries of [OUTPUT_FOLDER]. *)
Definition list_reports (listing : list DirEntry) : list Report :=
  sort_reports
    (map report_of
         (filter (fun e => is_report_name (de_name e) && de_isfile e) listing)).

Record ExcelKpis := mkExcelKpis {
  kpi_rows : nat;
  kpi_total_revenue : Q;
  kpi_top_product : Cell
}.

(** Lines 198-217 *)
Definition latest_excel_kpis (folder : string) (excel_reports : list Report)
  : option ExcelKpis :=
  match excel_reports with
  | [] => None
  | latest :: _ =>
      match read_excel folder (report_name latest) with
      | None => None
      | Some latest_df =>
          let latest_df := normalize_columns latest_df in
          let latest_df :=
            if PyStr.mem "total" (columns latest_df)
            then setitem latest_df "total"
                         (to_numeric str_to_float (getitem latest_df "total"))
            else latest_df in
          if PyStr.mem "product" (columns latest_df)
             && PyStr.mem "total" (columns latest_df)
          then
            let cleaned := dropna ["product"; "total"] latest_df in
            if negb (empty cleaned) then
              match best_by cleaned "total" with
              | Some top =>
                  Some {| kpi_rows := nrows cleaned;
                          kpi_total_revenue :=
                            series_sum (getitem cleaned "total");
                          kpi_top_product := top |}
              | None => None
              end
            else None
          else None
      end
  end.

Record AnalyticsSummary := mkAnalyticsSummary {
  an_reports : list Report;
  an_total_reports : nat;
  an_excel_reports : nat;
  an_pdf_reports : nat;
  an_total_size_kb : Q;
  an_latest_report : option Report;
  an_latest_excel_kpis : option ExcelKpis
}.

(** Lines 190-227 *)
Definition build_analytics_summary (w : World) (listing : list DirEntry)
  : AnalyticsSummary :=
  let reports := list_reports listing in
  let excel_reports :=
    filter (fun item => String.eqb (report_type item) "Excel") reports in
  let pdf_reports :=
    filter (fun item => String.eqb (report_type item) "PDF") reports in
  {| an_reports := reports;
     an_total_reports := List.length reports;
     an_excel_reports := List.length excel_reports;
     an_pdf_reports := List.length pdf_reports;
     an_total_size_kb := round2 (qsum (map report_size_kb reports));
     an_latest_report := hd_error reports;
     an_latest_excel_kpis := latest_excel_kpis (OUTPUT_FOLDER w) excel_reports |}.

End Reports.

(* ------------------------------------------------------------------ *)
(** ** The settings page ([build_settings_summary], [settings_page]) *)

Record SettingsSummary := mkSettingsSummary {
  st_app_name : string;
  st_app_version : string;
  st_environment : string;
  st_upload_folder : string;
  st_output_folder : string;
  st_total_reports : nat;
  st_excel_count : nat;
  st_pdf_count : nat;
  st_upload_files_count : nat;
  st_latest_report : option Report
}.

(** What [settings_page] answers to a POST: one of the two pages, or the
    exception that escapes the handler. *)
Inductive SettingsResponse :=
| SettingsSuccess (success : string) (summary : SettingsSummary)
| SettingsError (error : string) (summary : SettingsSummary)
| SettingsRaised.

Section SettingsPage.

(** [os.path]: [isabs], [abspath], [join], and the directory of app.py. *)
Variable isabs : string -> bool.
Variable abspath : string -> string.
Variable join : string -> string -> string.
Variable BASE_DIR : string.

(** [round(x, 2)] *)
Variable round2 : Q -> Q.

(** The entries [os.listdir], [os.path.isfile] and [os.stat] find in a
    directory that exists. *)
Variable listdir : string -> list DirEntry.

(** Lines 230-253; [None] when [os.listdir] raises because the folder is
    not there: first in [list_reports] on [OUTPUT_FOLDER], then on
    [UPLOAD_FOLDER]. *)
Definition build_settings_summary (w : World) : option SettingsSummary :=
  if negb (PyStr.mem (OUTPUT_FOLDER w) (directories w)) then None
  else
    let reports := list_reports round2 (listdir (OUTPUT_FOLDER w)) in
    let excel_count :=
      List.length
        (filter (fun item => String.eqb (report_type item) "Excel") reports) in
    let pdf_count :=
      List.length
        (filter (fun item => String.eqb (report_type item) "PDF") reports) in
    let latest_report := hd_error reports in
    if negb (PyStr.mem (UPLOAD_FOLDER w) (directories w)) then None
    else
      let upload_files_count :=
        List.length (filter de_isfile (listdir (UPLOAD_FOLDER w))) in
      Some {| st_app_name := "AutoSales Dashboard";
              st_app_version := "1.0.0";
              st_environment := "Development";
              st_upload_folder := abspath (UPLOAD_FOLDER w);
              st_output_folder := abspath (OUTPUT_FOLDER w);
              st_total_reports := List.length reports;
              st_excel_count := excel_count;
              st_pdf_count := pdf_count;
              st_upload_files_count := upload_files_count;
              st_latest_report := latest_report |}.

(** Lines 561-564: the [except] branch builds the summary again; an
    exception raised there leaves the handler. *)
Definition settings_failure (w : World) : SettingsResponse * World :=
  match build_settings_summary w with
  | Some summary =>
      (SettingsError
         "Unable to update storage paths. Please verify folder paths and permissions."
         summary, w)
  | None => (SettingsRaised, w)
  end.

(** Lines 548-564, the POST branch. *)
Definition settings_page (env : Env) (w : World)
    (upload_folder_input output_folder_input : option string)
  : SettingsResponse * World :=
  let upload_folder :=
    normalize_storage_path isabs abspath join BASE_DIR
      (Some (form_get upload_folder_input "")) "uploads" in
  let output_folder :=
    normalize_storage_path isabs abspath join BASE_DIR
      (Some (form_get output_folder_input "")) "output" in
  let (w, ok) := apply_storage_paths w upload_folder output_folder in
  if ok then
    let (w, ok) := save_storage_config env w upload_folder output_folder in
    if ok then
      match build_settings_summary w with
      | Some summary =>
          (SettingsSuccess "Storage paths updated successfully." summary, w)
      | None => settings_failure w
      end
    else settings_failure w
  else settings_failure w.

End SettingsPage.

(** Lines 642-650; [file_exists] is [os.path.exists] and [is_file] is
    [os.path.isfile], each on the joined path. *)
Definition download_report (file_exists is_file : string -> string -> bool)
    (w : World) (filename : string) : Download :=
  let safe_name := basename filename in
  if negb (file_exists (OUTPUT_FOLDER w) safe_name) then Abort404
  else send_from_directory is_file (OUTPUT_FOLDER w) safe_name.

(* ------------------------------------------------------------------ *)
(** ** Loading the storage configuration ([load_storage_config]) *)

Section Startup.

Variable isabs : string -> bool.
Variable abspath : string -> string.
Variable join : string -> string -> string.
Variable BASE_DIR : string.

(** Lines 35-51.  A configuration file that is not JSON reads as the empty
    dictionary, whose missing keys fall back in [normalize_storage_path]. *)
Definition load_storage_config (w : World) : string * string :=
  match config_file w with
  | Absent => (join BASE_DIR "uploads", join BASE_DIR "output")
  | Garbled =>
      (normalize_storage_path isabs abspath join BASE_DIR None "uploads",
       normalize_storage_path isabs abspath join BASE_DIR None "output")
  | Content (upload_folder, output_folder) =>
      (normalize_storage_path isabs abspath join BASE_DIR
                              (Some upload_folder) "uploads",
       normalize_storage_path isabs abspath join BASE_DIR
                              (Some output_folder) "output")
  end.

(** Lines 141-142, run when the module is loaded. *)
Definition startup (w : World) : World * bool :=
  let storage_config := load_storage_config w in
  apply_storage_paths w (fst storage_config) (snd storage_config).

End Startup.

(* ------------------------------------------------------------------ *)
(** ** Notions used in the statements about buckets *)

(** The period key a row of the final [chart_df] is grouped by. *)
Definition key_of_row (mode : TimeMode) (r : DataRow) : Z :=
  match mode with
  | ModeDate => to_period_M (row_get r "date")
  | ModeYearMonth => to_period_M (row_get r "period")
  | ModeYear => astype_int (row_get r "year_num")
  | ModeMonth => astype_int (row_get r "month_num")
  end.

(** The label a period key is shown with. *)
Definition label_of (mode : TimeMode) (key : Z) : string :=
  match mode with
  | ModeDate | ModeYearMonth => period_label key
  | ModeYear => string_of_Z key
  | ModeMonth => month_abbr key
  end.

(** The sum of [total] over the rows with period key [key]. *)
Definition bucket_total (mode : TimeMode) (key : Z) (rs : list DataRow) : Q :=
  series_sum
    (map (fun r => row_get r "total")
         (filter (fun r => key_of_row mode r =? key) rs)).

(** The sum a list of groups holds for [key], and the sum of the cells
    paired with [key]. *)
Definition group_value (key : Z) (g : list (Z * Q)) : Q :=
  qsum (map snd (filter (fun kv => fst kv =? key) g)).

Definition key_sum (key : Z) (kvs : list (Z * Cell)) : Q :=
  series_sum (map snd (filter (fun kv => fst kv =? key) kvs)).

(** A cell of a column made by [pd.to_numeric]. *)
Definition numeric_or_nan (c : Cell) : Prop := c = NaN \/ exists q, c = Num q.

(** The series [index] stores as "total": the numeric cast of the total
    column when that role is given and present, else quantity times price
    (lines 358-363). *)
Definition total_series (str_to_float : string -> option Q)
    (cols : list string) (m : Mapping) (df : DataFrame) : Series :=
  if negb (PyStr.is_empty (total_col m)) && PyStr.mem (total_col m) cols
  then to_numeric str_to_float (getitem df (total_col m))
  else series_mul (to_numeric str_to_float (getitem df (quantity_col m)))
                  (to_numeric str_to_float (getitem df (price_col m))).

(** A path [normalize_storage_path] hands back as it is: not empty, no
    blanks around it, absolute and already in [abspath] form. *)
Definition clean_path (isabs : string -> bool) (abspath : string -> string)
    (path : string) : Prop :=
  path <> "" /\ PyStr.strip path = path /\ isabs path = true /\
  abspath path = path.

(** Newest first. *)
Definition newer_or_same (a b : Report) : Prop :=
  (report_updated_at b <= report_updated_at a)%Q.

(** A cell whose value is a whole number. *)
Definition whole_number (c : Cell) : Prop :=
  exists z : Z, (cell_value c == inject_Z z)%Q.

(** Totals that float64 adds up without rounding, in any order: whole
    numbers whose absolute values sum to at most 2^53. *)
Definition exact_in_float64 (totals : Series) : Prop :=
  Forall whole_number totals /\
  (qsum (map (fun c => Qabs (cell_value c)) totals) <= inject_Z (2 ^ 53))%Q.

(** The numbers the revenue is derived from are exact in float64: the
    totals are, and so are the quantities and prices when the totals are
    their products. *)
Definition exact_revenue_inputs (str_to_float : string -> option Q)
    (cols : list string) (m : Mapping) (df : DataFrame) : Prop :=
  exact_in_float64 (total_series str_to_float cols m df) /\
  (negb (PyStr.is_empty (total_col m)) && PyStr.mem (total_col m) cols = false ->
   Forall whole_number (to_numeric str_to_float (getitem df (quantity_col m)))
   /\
   Forall whole_number (to_numeric str_to_float (getitem df (price_col m)))).

(** A number float64 holds exactly: a whole number of magnitude at most
    2^53. *)
Definition float64_exact (q : Q) : Prop :=
  exists z : Z, (q == inject_Z z)%Q /\ Z.abs z <= 2 ^ 53.

(** float64 as the program has it, for the totals 0.2, 0.3 and 0.1. *)
Module Binary64.
Import PrimFloat.

(** A sum taken from left to right, starting from 0. *)
Definition sum (l : list float) : float := fold_left add l zero.

(** The float64 values of 0.2, 0.3, 0.1, 0.6 and 0.6000000000000001. *)
Definition two_tenths : float := 0x1.999999999999ap-3%float.
Definition three_tenths : float := 0x1.3333333333333p-2%float.
Definition one_tenth : float := 0x1.999999999999ap-4%float.
Definition six_tenths : float := 0x1.3333333333333p-1%float.
Definition above_six_tenths : float := 0x1.3333333333334p-1%float.

End Binary64.

(* ------------------------------------------------------------------ *)
(** ** Notions used in the statements *)

(** A list obtained from another by dropping elements. *)
Inductive Subseq {A : Type} : list A -> list A -> Prop :=
| Subseq_nil : Subseq [] []
| Subseq_keep x l1 l2 : Subseq l1 l2 -> Subseq (x :: l1) (x :: l2)
| Subseq_drop x l1 l2 : Subseq l1 l2 -> Subseq l1 (x :: l2).

(** What every branch of the time bucketing guarantees about the totals:
    the chart keeps a sub-sequence of the derived rows' totals, and the
    values add up to the totals it kept. *)
Definition buckets_of (df : DataFrame) (c : Chart) : Prop :=
  let '(chart_df, _, values) := c in
  Subseq (getitem chart_df "total") (getitem df "total") /\
  (qsum values == series_sum (getitem chart_df "total"))%Q.


(** One call of [save_chart_to_history]: what the environment supplies and
    the six arguments. *)
Record Recording := mkRecording {
  rec_env : Env;
  rec_labels : list string;
  rec_values : list Q;
  rec_revenue : Q;
  rec_product : Cell;
  rec_time_mode : TimeMode;
  rec_filename : string
}.

Definition record (w : World) (r : Recording) : World :=
  snd (save_chart_to_history (rec_env r) w (rec_labels r) (rec_values r)
         (rec_revenue r) (rec_product r) (rec_time_mode r) (rec_filename r)).

(** The entry that call builds. *)
Definition entry_of (r : Recording) : HistoryEntry :=
  {| entry_id := env_uuid (rec_env r);
     entry_timestamp := env_now (rec_env r);
     entry_labels := rec_labels r;
     entry_values := rec_values r;
     entry_revenue := rec_revenue r;
     entry_product := rec_product r;
     entry_time_mode := rec_time_mode r;
     entry_filename := rec_filename r |}.

(** Successive calls, first to last. *)
Definition record_all (rs : list Recording) (w : World) : World :=
  fold_left record rs w.

Definition write_succeeds (r : Recording) : Prop :=
  env_history_write (rec_env r) = WriteOk.


(* ------------------------------------------------------------------ *)
(** ** Concrete uploads, forms and worlds *)

Module Scenario.

Definition env (history_write : WriteOutcome) : Env :=
  {| env_uuid := "9f1c2ab4";
     env_now := "2024-03-01T10:00:00";
     env_stamp := "20240301_100000";
     env_history_write := history_write;
     env_config_write := WriteOk |}.

Definition world : World :=
  {| UPLOAD_FOLDER := "/srv/app/uploads";
     OUTPUT_FOLDER := "/srv/app/output";
     config_file := Absent;
     chart_history_file := Absent;
     directories := ["/srv/app/uploads"; "/srv/app/output"];
     uncreatable := ["/proc/uploads"] |}.

(** A frame as [read_csv] returns it: header names and rows of cells. *)
Definition frame (header : list string) (data : list (list Cell)) : DataFrame :=
  {| columns := header; rows := map (combine header) data |}.

(** [index] on a [process_data] post, with the scenario readers. *)
Definition post (df : DataFrame) (form : Form) : Response * World :=
  process_data Readers.read_decimal Readers.read_dates (env WriteOk) world df form.

Definition form_of (mode product total quantity price date year month : string)
  : Form :=
  {| form_time_mode := Some mode;
     form_product_col := Some product;
     form_total_col := Some total;
     form_quantity_col := Some quantity;
     form_price_col := Some price;
     form_date_col := Some date;
     form_year_col := Some year;
     form_month_col := Some month |}.

(** Month mode over the columns product, total, month. *)
Definition month_form : Form :=
  form_of "month" "product" "total" "" "" "" "" "month".

(** Scenario B: months Jan, February, 13, bogus with totals 1, 2, 3, 4. *)
Definition months_upload (p1 p2 p3 p4 thirteen : Cell) : DataFrame :=
  frame ["product"; "total"; "month"]
        [[p1; Num 1; Str "Jan"];
         [p2; Num 2; Str "February"];
         [p3; Num 3; thirteen];
         [p4; Num 4; Str "bogus"]].

(** A refund row whose month does not parse, next to a sale in January. *)
Definition refund_upload : DataFrame :=
  frame ["product"; "total"; "month"]
        [[Str "A"; Num (-5); Str "bogus"];
         [Str "B"; Num 10; Str "Jan"]].

(** A zero-total row whose month does not parse. *)
Definition free_sample_upload : DataFrame :=
  frame ["product"; "total"; "month"]
        [[Str "A"; Num 0; Str "bogus"];
         [Str "B"; Num 10; Str "Jan"]].

(** One sale whose month cell is [month], in the year 2024. *)
Definition fraction_upload (month : Cell) : DataFrame :=
  frame ["product"; "total"; "year"; "month"]
        [[Str "A"; Num 1; Num 2024; month]].

Definition year_month_form : Form :=
  form_of "year_month" "product" "total" "" "" "" "year" "month".

(** The [n]-th of a run of aggregations recorded one after the other. *)
Definition recording (n : nat) : Recording :=
  {| rec_env :=
       {| env_uuid := string_of_Z (Z.of_nat n);
          env_now := "2024-03-01T10:00:00";
          env_stamp := "20240301_100000";
          env_history_write := WriteOk;
          env_config_write := WriteOk |};
     rec_labels := ["2024-01"];
     rec_values := [inject_Z (Z.of_nat n)];
     rec_revenue := inject_Z (Z.of_nat n);
     rec_product := Str "A";
     rec_time_mode := ModeDate;
     rec_filename := "sales_report_20240301_100000.xlsx" |}.

(** A CSV whose second header cell is a single blank; the form leaves the
    total, quantity and price roles blank. *)
Definition blank_header_upload : DataFrame :=
  frame ["product"; " "; "date"] [[Str "A"; Num 3; Str "2024-01-05"]].

Definition blank_roles_form : Form :=
  form_of "date" "product" "" "  " "" "date" "" "".



(** A CSV with a column named quantity; the form leaves the quantity role
    blank and takes the revenue from the total column. *)
Definition unselected_quantity_upload : DataFrame :=
  frame ["product"; "quantity"; "total"; "date"]
        [[Str "A"; Num 1; Num 100; Str "2024-01-05"];
         [Str "B"; Num 5; Num 10; Str "2024-01-20"]].

Definition total_only_form : Form :=
  form_of "date" "product" "total" "" "" "date" "" "".

(** [settings_page] on a POSIX file system, app.py living in /srv/app and
    the folders that exist holding no files. *)
Definition settings_post (w : World) (upload output : string)
  : SettingsResponse * World :=
  settings_page Readers.posix_isabs (fun p => p) Readers.posix_join "/srv/app"
                Readers.round_cents (fun _ => [])
                (env WriteOk) w (Some upload) (Some output).

End Scenario.

(* ------------------------------------------------------------------ *)
(** ** Facts about form fields *)

Lemma lstrip_all_space (s : string) :
  PyStr.all_space s = true -> PyStr.lstrip s = "".
Proof.
  induction s as [|c s IH]; simpl; [reflexivity|].
  destruct (PyStr.is_space c); simpl; [exact IH | discriminate].
Qed.

(** A role submitted as blanks only reads as the empty name. *)
Lemma blank_role_reads_empty (s : string) :
  PyStr.all_space s = true -> read_role (Some s) = "".
Proof.
  intros H. unfold read_role, form_get, PyStr.strip.
  rewrite (lstrip_all_space s H). reflexivity.
Qed.

(* ------------------------------------------------------------------ *)
(** ** Facts about rows and frames *)

Lemma row_get_set_other (r : DataRow) (name n : string) (v : Cell) :
  name <> n -> row_get (row_set r name v) n = row_get r n.
Proof.
  intros Hne. induction r as [|[k v'] r IH]; simpl.
  - destruct (String.eqb_spec name n); [contradiction | reflexivity].
  - destruct (String.eqb_spec k name) as [->|Hk]; simpl.
    + destruct (String.eqb_spec name n); [contradiction | reflexivity].
    + destruct (String.eqb k n); [reflexivity | exact IH].
Qed.

Lemma length_assign (name : string) (rs : list DataRow) (s : Series) :
  List.length (assign name rs s) = List.length rs.
Proof.
  revert s. induction rs as [|r rs IH]; intros s; simpl; [reflexivity|].
  destruct s; simpl; now rewrite IH.
Qed.

Lemma getitem_setitem_other (df : DataFrame) (name n : string) (s : Series) :
  name <> n -> getitem (setitem df name s) n = getitem df n.
Proof.
  intros Hne. unfold getitem, setitem; simpl.
  generalize (rows df) as rs. intros rs. revert s.
  induction rs as [|r rs IH]; intros s; simpl; [reflexivity|].
  destruct s; simpl; rewrite row_get_set_other by assumption; now rewrite IH.
Qed.

Lemma nrows_setitem (df : DataFrame) (name : string) (s : Series) :
  nrows (setitem df name s) = nrows df.
Proof. unfold nrows, setitem; simpl. apply length_assign. Qed.

Lemma length_getitem (df : DataFrame) (name : string) :
  List.length (getitem df name) = nrows df.
Proof. unfold getitem, nrows. apply length_map. Qed.

Lemma Subseq_refl {A : Type} (l : list A) : Subseq l l.
Proof. induction l; constructor; assumption. Qed.

Lemma Subseq_trans {A : Type} (l1 l2 l3 : list A) :
  Subseq l1 l2 -> Subseq l2 l3 -> Subseq l1 l3.
Proof.
  intros H12 H23. revert l1 H12.
  induction H23 as [|x l2 l3 H IH|x l2 l3 H IH]; intros l1 H12.
  - exact H12.
  - inversion H12; subst.
    + constructor. now apply IH.
    + apply Subseq_drop. now apply IH.
  - apply Subseq_drop. now apply IH.
Qed.

Lemma Subseq_length {A : Type} (l1 l2 : list A) :
  Subseq l1 l2 -> (List.length l1 <= List.length l2)%nat.
Proof. induction 1; simpl; lia. Qed.

Lemma Subseq_same_length {A : Type} (l1 l2 : list A) :
  Subseq l1 l2 -> List.length l1 = List.length l2 -> l1 = l2.
Proof.
  induction 1 as [|x l1 l2 H IH|x l1 l2 H IH]; simpl; intros Hlen.
  - reflexivity.
  - f_equal. apply IH. lia.
  - apply Subseq_length in H. lia.
Qed.

Lemma Subseq_map_filter {A B : Type} (f : A -> B) (p : A -> bool) (l : list A) :
  Subseq (map f (filter p l)) (map f l).
Proof.
  induction l as [|x l IH]; simpl; [constructor|].
  destruct (p x); simpl; constructor; assumption.
Qed.

Lemma getitem_dropna (names : list string) (df : DataFrame) (n : string) :
  Subseq (getitem (dropna names df) n) (getitem df n).
Proof. unfold getitem, dropna; simpl. apply Subseq_map_filter. Qed.

Lemma getitem_select (p : DataRow -> bool) (df : DataFrame) (n : string) :
  Subseq (getitem (select p df) n) (getitem df n).
Proof. unfold getitem, select; simpl. apply Subseq_map_filter. Qed.

(** ** Facts about sums *)

Lemma series_sum_Subseq_le (l1 l2 : Series) :
  Subseq l1 l2 -> Forall (fun c => 0 <= cell_value c)%Q l2 ->
  (series_sum l1 <= series_sum l2)%Q.
Proof.
  induction 1 as [|x l1 l2 H IH|x l1 l2 H IH]; simpl; intros Hpos.
  - lra.
  - inversion Hpos as [|? ? Hx Hrest]; subst. specialize (IH Hrest). lra.
  - inversion Hpos as [|? ? Hx Hrest]; subst. specialize (IH Hrest). lra.
Qed.

Lemma series_sum_Subseq_eq (l1 l2 : Series) :
  Subseq l1 l2 -> Forall (fun c => 0 < cell_value c)%Q l2 ->
  (series_sum l1 == series_sum l2)%Q -> List.length l1 = List.length l2.
Proof.
  induction 1 as [|x l1 l2 H IH|x l1 l2 H IH]; simpl; intros Hpos Heq.
  - reflexivity.
  - inversion Hpos as [|? ? Hx Hrest]; subst. f_equal.
    apply IH; [assumption | lra].
  - inversion Hpos as [|? ? Hx Hrest]; subst. exfalso.
    assert (Hle : (series_sum l1 <= series_sum l2)%Q).
    { apply series_sum_Subseq_le; [assumption|].
      eapply Forall_impl; [|exact Hrest]. simpl. intros c Hc. lra. }
    lra.
Qed.

(** ** Facts about grouping *)

Section GroupByFacts.
Context {K : Type} (cmp : K -> K -> comparison).

Lemma add_group_sum (k : K) (v : Q) (g : list (K * Q)) :
  (qsum (map snd (add_group cmp k v g)) == v + qsum (map snd g))%Q.
Proof.
  induction g as [|[k' v'] g IH]; simpl.
  - lra.
  - destruct (cmp k k'); simpl; try rewrite IH; lra.
Qed.

Lemma fold_add_group_sum (kvs : list (K * Cell)) (g : list (K * Q)) :
  (qsum (map snd (fold_left
                    (fun g kv => add_group cmp (fst kv) (cell_value (snd kv)) g)
                    kvs g))
   == qsum (map snd g) + series_sum (map snd kvs))%Q.
Proof.
  revert g. induction kvs as [|[k c] kvs IH]; intros g; simpl.
  - lra.
  - rewrite IH, add_group_sum. lra.
Qed.

Lemma map_snd_combine (keys : list K) (vals : Series) :
  List.length keys = List.length vals -> map snd (combine keys vals) = vals.
Proof.
  revert vals. induction keys as [|k keys IH]; intros [|c vals]; simpl;
    intros Hlen; try discriminate; [reflexivity|].
  f_equal. apply IH. lia.
Qed.

Lemma groupby_sum_total (keys : list K) (vals : Series) :
  List.length keys = List.length vals ->
  (qsum (map snd (groupby_sum cmp keys vals)) == series_sum vals)%Q.
Proof.
  intros Hlen. unfold groupby_sum.
  rewrite fold_add_group_sum, map_snd_combine by assumption. simpl. lra.
Qed.

Lemma insert_sorted_sum (kv : K * Q) (g : list (K * Q)) :
  (qsum (map snd (insert_sorted cmp kv g)) == snd kv + qsum (map snd g))%Q.
Proof.
  induction g as [|kv' g IH]; simpl.
  - lra.
  - destruct (cmp (fst kv) (fst kv')); simpl; try rewrite IH; lra.
Qed.

Lemma sort_index_sum (g : list (K * Q)) :
  (qsum (map snd (sort_index cmp g)) == qsum (map snd g))%Q.
Proof.
  induction g as [|kv g IH]; simpl.
  - lra.
  - rewrite insert_sorted_sum, IH. lra.
Qed.

Lemma add_group_keys (k k0 : K) (v : Q) (g : list (K * Q)) :
  In k (map fst (add_group cmp k0 v g)) -> k = k0 \/ In k (map fst g).
Proof.
  induction g as [|[k' v'] g IH]; simpl.
  - intros [H|[]]; auto.
  - destruct (cmp k0 k'); simpl.
    + intros [H|H]; auto.
    + intros [H|[H|H]]; auto.
    + intros [H|H]; auto. destruct (IH H); auto.
Qed.

Lemma groupby_sum_keys (k : K) (keys : list K) (vals : Series) :
  In k (map fst (groupby_sum cmp keys vals)) -> In k keys.
Proof.
  unfold groupby_sum.
  assert (Hgen : forall kvs g,
    In k (map fst (fold_left
             (fun g kv => add_group cmp (fst kv) (cell_value (snd kv)) g)
             kvs g)) ->
    In k (map fst kvs) \/ In k (map fst g)).
  { induction kvs as [|[k1 c1] kvs IH]; intros g; simpl.
    - auto.
    - intros H. destruct (IH _ H) as [H'|H']; auto.
      apply add_group_keys in H'. destruct H'; auto. }
  intros H. destruct (Hgen _ _ H) as [H'|[]].
  revert H'. clear. revert vals.
  induction keys as [|k1 keys IH]; intros [|c vals]; simpl; try tauto.
  intros [H|H]; eauto.
Qed.

Lemma add_group_nonempty (k : K) (v : Q) (g : list (K * Q)) :
  add_group cmp k v g <> [].
Proof. destruct g as [|[k' v'] g]; simpl; [|destruct (cmp k k')]; discriminate. Qed.

Lemma groupby_sum_nonempty (keys : list K) (vals : Series) :
  keys <> [] -> vals <> [] -> groupby_sum cmp keys vals <> [].
Proof.
  intros Hk Hv. unfold groupby_sum.
  destruct keys as [|k keys]; [contradiction|].
  destruct vals as [|c vals]; [contradiction|]. simpl.
  assert (Hgen : forall kvs g, g <> [] ->
    fold_left (fun g kv => add_group cmp (fst kv) (cell_value (snd kv)) g)
              kvs g <> []).
  { induction kvs as [|kv kvs IH]; intros g Hg; simpl; [assumption|].
    apply IH. apply add_group_nonempty. }
  apply Hgen. discriminate.
Qed.

Lemma idxmax_some (g : list (K * Q)) :
  g <> [] -> exists k, idxmax g = Some k.
Proof. destruct g; [contradiction|]. simpl. eauto. Qed.
End GroupByFacts.

(** Groups keyed by integers come out in strictly increasing key order. *)
Lemma add_group_sorted (k : Z) (v : Q) (g : list (Z * Q)) :
  StronglySorted Z.lt (map fst g) ->
  StronglySorted Z.lt (map fst (add_group Z.compare k v g)).
Proof.
  induction g as [|[k' v'] g IH]; simpl; intros Hs.
  - repeat constructor.
  - inversion Hs as [|? ? Hs' Hall]; subst.
    destruct (Z.compare_spec k k') as [Heq|Hlt|Hgt]; simpl.
    + constructor; assumption.
    + constructor; [constructor; assumption|].
      constructor; [assumption|].
      eapply Forall_impl; [|exact Hall]. simpl. intros; lia.
    + constructor; [now apply IH|].
      apply Forall_forall. intros x Hx.
      apply add_group_keys in Hx. destruct Hx as [->|Hx]; [lia|].
      rewrite Forall_forall in Hall. now apply Hall.
Qed.

Lemma groupby_sum_sorted (keys : list Z) (vals : Series) :
  StronglySorted Z.lt (map fst (groupby_sum Z.compare keys vals)).
Proof.
  unfold groupby_sum.
  assert (Hgen : forall kvs g, StronglySorted Z.lt (map fst g) ->
    StronglySorted Z.lt (map fst (fold_left
       (fun g kv => add_group Z.compare (fst kv) (cell_value (snd kv)) g)
       kvs g))).
  { induction kvs as [|kv kvs IH]; intros g Hg; simpl; [assumption|].
    apply IH. now apply add_group_sorted. }
  apply Hgen. constructor.
Qed.

(** Sorting groups that are already in key order changes nothing. *)
Lemma sort_index_sorted (g : list (Z * Q)) :
  StronglySorted Z.lt (map fst g) -> sort_index Z.compare g = g.
Proof.
  induction g as [|kv g IH]; simpl; intros Hs; [reflexivity|].
  inversion Hs as [|? ? Hs' Hall]; subst.
  rewrite (IH Hs'). destruct g as [|kv' g]; simpl; [reflexivity|].
  inversion Hall; subst.
  destruct (Z.compare_spec (fst kv) (fst kv')); try reflexivity; lia.
Qed.

(** ** Facts about the pipeline *)

Lemma grouped_sum_total (keys : list Z) (vals : Series) :
  List.length keys = List.length vals ->
  (qsum (map snd (sort_index Z.compare (groupby_sum Z.compare keys vals)))
   == series_sum vals)%Q.
Proof.
  intros Hlen. rewrite sort_index_sum. now apply groupby_sum_total.
Qed.

Lemma grouped_keys_sorted (keys : list Z) (vals : Series) :
  StronglySorted Z.lt
    (map fst (sort_index Z.compare (groupby_sum Z.compare keys vals))).
Proof.
  rewrite sort_index_sorted; apply groupby_sum_sorted.
Qed.

Lemma grouped_keys_in (k : Z) (keys : list Z) (vals : Series) :
  In k (map fst (sort_index Z.compare (groupby_sum Z.compare keys vals))) ->
  In k keys.
Proof.
  rewrite sort_index_sorted by apply groupby_sum_sorted.
  apply groupby_sum_keys.
Qed.

Ltac total_untouched :=
  repeat first
    [ rewrite getitem_setitem_other by discriminate
    | eapply Subseq_trans; [apply getitem_select|]
    | eapply Subseq_trans; [apply getitem_dropna|] ];
  apply Subseq_refl.

Ltac same_rows :=
  rewrite ?length_map, ?length_getitem; reflexivity.

Section PipelineFacts.
Variable str_to_float : string -> option Q.
Variable to_datetime : Series -> list (option Timestamp).

Lemma bucket_date_buckets cols m df c :
  bucket_date to_datetime cols m df = inr c -> buckets_of df c.
Proof.
  unfold bucket_date. destruct (negb _); [discriminate|].
  intros H; injection H as <-. unfold buckets_of, chart_of. split.
  - total_untouched.
  - apply grouped_sum_total. same_rows.
Qed.

Lemma bucket_year_month_buckets cols m df c :
  bucket_year_month str_to_float cols m df = inr c -> buckets_of df c.
Proof.
  unfold bucket_year_month. destruct (_ || _); [discriminate|].
  intros H; injection H as <-. unfold buckets_of, chart_of. split.
  - total_untouched.
  - apply grouped_sum_total. same_rows.
Qed.

Lemma bucket_year_buckets cols m df c :
  bucket_year str_to_float cols m df = inr c -> buckets_of df c.
Proof.
  unfold bucket_year. destruct (negb _); [discriminate|].
  intros H; injection H as <-. unfold buckets_of, chart_of. split.
  - total_untouched.
  - apply grouped_sum_total. same_rows.
Qed.

Lemma bucket_month_buckets cols m df c :
  bucket_month str_to_float cols m df = inr c -> buckets_of df c.
Proof.
  unfold bucket_month. destruct (negb _); [discriminate|].
  intros H; injection H as <-. unfold buckets_of, chart_of. split.
  - total_untouched.
  - apply grouped_sum_total. same_rows.
Qed.

Lemma bucket_buckets mode cols m df c :
  bucket str_to_float to_datetime mode cols m df = inr c -> buckets_of df c.
Proof.
  unfold bucket. intros H.
  destruct mode;
    match type of H with
    | match ?b with _ => _ end = _ => destruct b as [e|[[cd ls] vs]] eqn:Hb
    end; try discriminate;
    (destruct (_ || _); [discriminate|]); injection H as <-.
  - now apply bucket_date_buckets in Hb.
  - now apply bucket_year_month_buckets in Hb.
  - now apply bucket_year_buckets in Hb.
  - now apply bucket_month_buckets in Hb.
Qed.

(** A rendered result comes from a derived frame and a chart of it. *)
Lemma process_data_result env w raw form revenue product labels values mode :
  fst (process_data str_to_float to_datetime env w raw form)
  = RenderResult revenue product labels values mode ->
  exists df chart_df,
    derive str_to_float (columns (normalize_columns raw)) (read_mapping form)
           (normalize_columns raw) = inr df /\
    bucket str_to_float to_datetime (read_time_mode form)
           (columns (normalize_columns raw)) (read_mapping form) df
    = inr (chart_df, labels, values) /\
    revenue = series_sum (getitem df "total") /\
    best_product df = Some product /\
    mode = read_time_mode form.
Proof.
  unfold process_data.
  destruct (derive _ _ _ _) as [e|df] eqn:Hd; [discriminate|].
  destruct (bucket _ _ _ _ _ _) as [e|[[chart_df ls] vs]] eqn:Hb;
    [discriminate|].
  destruct (best_product df) as [best|] eqn:Hbest; [|discriminate].
  destruct (save_chart_to_history _ _ _ _ _ _ _ _) as [i w'].
  simpl. intros H. injection H as <- <- <- <- <-.
  exists df, chart_df. auto.
Qed.
(** Conversely, the three stages succeeding give the rendered result. *)
Lemma process_data_render env w raw form df chart_df labels values best :
  derive str_to_float (columns (normalize_columns raw)) (read_mapping form)
         (normalize_columns raw) = inr df ->
  bucket str_to_float to_datetime (read_time_mode form)
         (columns (normalize_columns raw)) (read_mapping form) df
  = inr (chart_df, labels, values) ->
  best_product df = Some best ->
  fst (process_data str_to_float to_datetime env w raw form)
  = RenderResult (series_sum (getitem df "total")) best labels values
                 (read_time_mode form).
Proof.
  intros Hd Hb Hbest. unfold process_data. rewrite Hd, Hb, Hbest.
  destruct (save_chart_to_history _ _ _ _ _ _ _ _). reflexivity.
Qed.
End PipelineFacts.

(** ** Facts about month numbers *)

Lemma trunc_floor (q : Q) : (0 <= q)%Q -> trunc q = Qfloor q.
Proof.
  destruct q as [n d]. unfold Qle, trunc, Qfloor; simpl. intros H.
  apply Z.quot_div_nonneg; lia.
Qed.

Lemma month_in_range_bounds (q : Q) :
  month_in_range (Num q) = true <-> (1 <= q /\ q <= 12)%Q.
Proof.
  simpl. rewrite andb_true_iff, !Qle_bool_iff. reflexivity.
Qed.

Lemma trunc_month (q : Q) :
  (1 <= q)%Q -> (q <= 12)%Q -> 1 <= trunc q <= 12.
Proof.
  intros H1 H12. rewrite trunc_floor by lra.
  split.
  - change 1 with (Qfloor 1). now apply Qfloor_resp_le.
  - change 12 with (Qfloor 12). now apply Qfloor_resp_le.
Qed.

Lemma month_abbr_in_table (m : Z) :
  1 <= m <= 12 -> In (month_abbr m) month_abbr_table.
Proof.
  intros H.
  assert (Hm : m = 1 \/ m = 2 \/ m = 3 \/ m = 4 \/ m = 5 \/ m = 6 \/
               m = 7 \/ m = 8 \/ m = 9 \/ m = 10 \/ m = 11 \/ m = 12) by lia.
  repeat (destruct Hm as [->|Hm]; [vm_compute; tauto|]).
  subst m. vm_compute. tauto.
Qed.

(* ------------------------------------------------------------------ *)
(** ** Facts about the groups of a chart *)

Lemma add_group_value (k k' : Z) (v : Q) (g : list (Z * Q)) :
  (group_value k' (add_group Z.compare k v g)
   == group_value k' g + (if k =? k' then v else 0))%Q.
Proof.
  unfold group_value. induction g as [|[k1 v1] g IH]; simpl.
  - destruct (k =? k'); simpl; lra.
  - destruct (Z.compare_spec k k1) as [->|Hlt|Hgt]; simpl.
    + destruct (k1 =? k'); simpl; lra.
    + destruct (k =? k'), (k1 =? k'); simpl; lra.
    + destruct (k1 =? k'); simpl; rewrite IH; lra.
Qed.

Lemma groupby_sum_value (k : Z) (keys : list Z) (vals : Series) :
  (group_value k (groupby_sum Z.compare keys vals)
   == key_sum k (combine keys vals))%Q.
Proof.
  unfold groupby_sum.
  assert (Hgen : forall kvs g,
    (group_value k (fold_left
        (fun g kv => add_group Z.compare (fst kv) (cell_value (snd kv)) g)
        kvs g)
     == group_value k g + key_sum k kvs)%Q).
  { induction kvs as [|[k1 c1] kvs IH]; intros g; simpl.
    - unfold key_sum; simpl. lra.
    - rewrite IH, add_group_value. unfold key_sum; simpl.
      destruct (k1 =? k); simpl; lra. }
  rewrite Hgen. unfold group_value; simpl. lra.
Qed.

Lemma group_value_sorted (k : Z) (v : Q) (g : list (Z * Q)) :
  StronglySorted Z.lt (map fst g) -> In (k, v) g ->
  (group_value k g == v)%Q.
Proof.
  unfold group_value. induction g as [|[k1 v1] g IH]; simpl; intros Hs Hin.
  - contradiction.
  - inversion Hs as [|? ? Hs' Hall]; subst. rewrite Forall_forall in Hall.
    destruct Hin as [Heq|Hin].
    + injection Heq as -> ->. rewrite Z.eqb_refl. simpl.
      assert (Hnone : filter (fun kv => fst kv =? k) g = []).
      { clear -Hall. induction g as [|[k2 v2] g IHg]; simpl; [reflexivity|].
        assert (k < k2) by (apply Hall; simpl; auto).
        destruct (Z.eqb_spec k2 k); [lia|].
        apply IHg. intros x Hx. apply Hall. simpl; auto. }
      rewrite Hnone. simpl. lra.
    + assert (k1 < k) by (apply Hall; apply in_map_iff; exists (k, v); auto).
      destruct (Z.eqb_spec k1 k); [lia|]. now apply IH.
Qed.

Lemma add_group_has_key (k : Z) (v : Q) (g : list (Z * Q)) :
  In k (map fst (add_group Z.compare k v g)).
Proof.
  induction g as [|[k1 v1] g IH]; simpl; [auto|].
  destruct (Z.compare_spec k k1) as [->|Hlt|Hgt]; simpl; auto.
Qed.

Lemma add_group_keeps_keys (k k' : Z) (v : Q) (g : list (Z * Q)) :
  In k' (map fst g) -> In k' (map fst (add_group Z.compare k v g)).
Proof.
  induction g as [|[k1 v1] g IH]; simpl; [tauto|].
  destruct (Z.compare k k1); simpl; intros [H|H]; auto.
Qed.

Lemma groupby_sum_has_keys (k : Z) (keys : list Z) (vals : Series) :
  List.length keys = List.length vals -> In k keys ->
  In k (map fst (groupby_sum Z.compare keys vals)).
Proof.
  unfold groupby_sum. intros Hlen Hin.
  assert (Hgen : forall kvs g,
    In k (map fst kvs) \/ In k (map fst g) ->
    In k (map fst (fold_left
       (fun g kv => add_group Z.compare (fst kv) (cell_value (snd kv)) g)
       kvs g))).
  { induction kvs as [|[k1 c1] kvs IH]; intros g; simpl.
    - intros [[]|H]; exact H.
    - intros [[->|H]|H]; apply IH.
      + right. apply add_group_has_key.
      + now left.
      + right. now apply add_group_keeps_keys. }
  apply Hgen. left.
  revert vals Hlen Hin. induction keys as [|k1 keys IH]; intros [|c vals];
    simpl; intros Hlen Hin; try discriminate; try contradiction.
  destruct Hin as [->|Hin]; [now left|]. right. apply IH; [lia | assumption].
Qed.

Lemma key_sum_rows {A : Type} (f : A -> Z) (g : A -> Cell) (k : Z)
    (rs : list A) :
  key_sum k (combine (map f rs) (map g rs))
  = series_sum (map g (filter (fun r => f r =? k) rs)).
Proof.
  unfold key_sum. f_equal.
  induction rs as [|r rs IH]; simpl; [reflexivity|].
  destruct (f r =? k); simpl; now rewrite IH.
Qed.

Section BucketFacts.
Variable str_to_float : string -> option Q.
Variable to_datetime : Series -> list (option Timestamp).

(** Every branch groups the rows of its final [chart_df] by their period
    key, and something was bucketed. *)
Lemma bucket_chart mode cols m df chart_df labels values :
  bucket str_to_float to_datetime mode cols m df
  = inr (chart_df, labels, values) ->
  let grouped :=
    groupby_sum Z.compare (map (key_of_row mode) (rows chart_df))
                (getitem chart_df "total") in
  labels = map (label_of mode) (map fst grouped) /\
  values = map snd grouped /\
  rows chart_df <> [] /\ labels <> [].
Proof.
  unfold bucket. intros H.
  assert (Hshape : forall cd ls vs,
    inr (cd, ls, vs) = (inr (chart_df, labels, values) : string + Chart) ->
    cd = chart_df /\ ls = labels /\ vs = values)
    by (intros ? ? ? Heq; injection Heq; auto).
  destruct mode;
    match type of H with
    | match ?b with _ => _ end = _ => destruct b as [e|[[cd ls] vs]] eqn:Hb
    end; try discriminate;
    (destruct (empty cd) eqn:Hempty; [discriminate|]);
    (destruct ls as [|l ls]; [discriminate|]);
    simpl in H; apply Hshape in H; destruct H as (-> & <- & <-).
  all: assert (Hrows : rows chart_df <> [])
         by (unfold empty in Hempty; destruct (rows chart_df); discriminate).
  all: cbv zeta.
  - unfold bucket_date in Hb. destruct (negb _); [discriminate|].
    unfold chart_of in Hb. injection Hb as Hcd Hl Hv. subst chart_df.
    rewrite sort_index_sorted in Hl, Hv by apply groupby_sum_sorted.
    unfold getitem at 1 in Hl. unfold getitem at 1 in Hv.
    rewrite map_map in Hl, Hv. rewrite <- map_map in Hl.
    repeat split; try (symmetry; assumption); try assumption. discriminate.
  - unfold bucket_year_month in Hb. destruct (_ || _); [discriminate|].
    unfold chart_of in Hb. injection Hb as Hcd Hl Hv. subst chart_df.
    rewrite sort_index_sorted in Hl, Hv by apply groupby_sum_sorted.
    unfold getitem at 1 in Hl. unfold getitem at 1 in Hv.
    rewrite map_map in Hl, Hv. rewrite <- map_map in Hl.
    repeat split; try (symmetry; assumption); try assumption. discriminate.
  - unfold bucket_year in Hb. destruct (negb _); [discriminate|].
    unfold chart_of in Hb. injection Hb as Hcd Hl Hv. subst chart_df.
    rewrite sort_index_sorted in Hl, Hv by apply groupby_sum_sorted.
    unfold getitem at 1 in Hl. unfold getitem at 1 in Hv.
    rewrite map_map in Hl, Hv. rewrite <- map_map in Hl.
    repeat split; try (symmetry; assumption); try assumption. discriminate.
  - unfold bucket_month in Hb. destruct (negb _); [discriminate|].
    unfold chart_of in Hb. injection Hb as Hcd Hl Hv. subst chart_df.
    rewrite sort_index_sorted in Hl, Hv by apply groupby_sum_sorted.
    unfold getitem at 1 in Hl. unfold getitem at 1 in Hv.
    rewrite map_map in Hl, Hv. rewrite <- map_map in Hl.
    repeat split; try (symmetry; assumption); try assumption. discriminate.
Qed.
End BucketFacts.
(* ------------------------------------------------------------------ *)
(** ** Facts about derivation *)

Lemma row_get_set_same (r : DataRow) (name : string) (v : Cell) :
  row_get (row_set r name v) name = v.
Proof.
  induction r as [|[k v'] r IH]; simpl.
  - now rewrite String.eqb_refl.
  - destruct (String.eqb k name) eqn:Hk; simpl; rewrite Hk; auto.
Qed.

Lemma getitem_setitem_same (df : DataFrame) (name : string) (s : Series) :
  List.length s = nrows df -> getitem (setitem df name s) name = s.
Proof.
  unfold getitem, setitem, nrows; simpl.
  generalize (rows df) as rs. intros rs. revert s.
  induction rs as [|r rs IH]; intros [|c s]; simpl; intros Hlen;
    try discriminate; [reflexivity|].
  rewrite row_get_set_same. f_equal. apply IH. lia.
Qed.

Lemma length_series_mul (a b : Series) :
  List.length a = List.length b ->
  List.length (series_mul a b) = List.length a.
Proof.
  revert b. induction a as [|x a IH]; intros [|y b]; simpl; intros Hlen;
    try discriminate; [reflexivity|].
  f_equal. apply IH. lia.
Qed.

Lemma to_numeric_numeric (str_to_float : string -> option Q) (s : Series) :
  Forall numeric_or_nan (to_numeric str_to_float s).
Proof.
  unfold to_numeric. apply Forall_forall. intros c Hc.
  apply in_map_iff in Hc. destruct Hc as (c0 & <- & _).
  destruct c0 as [|q|t| |]; simpl; unfold numeric_or_nan; eauto.
  destruct (str_to_float t); eauto.
Qed.

Lemma series_mul_numeric (a b : Series) :
  Forall numeric_or_nan (series_mul a b).
Proof.
  revert b. induction a as [|x a IH]; intros [|y b]; simpl; constructor;
    auto.
  destruct x, y; simpl; unfold numeric_or_nan; eauto.
Qed.

Lemma Subseq_Forall {A : Type} (P : A -> Prop) (l1 l2 : list A) :
  Subseq l1 l2 -> Forall P l2 -> Forall P l1.
Proof.
  induction 1 as [|x l1 l2 H IH|x l1 l2 H IH]; intros Hall.
  - constructor.
  - inversion Hall; subst. constructor; auto.
  - inversion Hall; subst. auto.
Qed.

Lemma length_total_series str_to_float cols m df :
  List.length (total_series str_to_float cols m df) = nrows df.
Proof.
  unfold total_series, to_numeric. destruct (_ && _).
  - now rewrite length_map, length_getitem.
  - rewrite length_series_mul; now rewrite !length_map, !length_getitem.
Qed.

Lemma total_series_numeric str_to_float cols m df :
  Forall numeric_or_nan (total_series str_to_float cols m df).
Proof.
  unfold total_series. destruct (_ && _).
  - apply to_numeric_numeric.
  - apply series_mul_numeric.
Qed.

(** The frame [derive] hands on is the frame with the three derived
    columns, less its incomplete rows. *)
Lemma derive_inv str_to_float cols m df df' :
  derive str_to_float cols m df = inr df' ->
  exists full,
    df' = dropna ["product"; "total"] full /\
    getitem full "total" = total_series str_to_float cols m df /\
    nrows full = nrows df /\
    rows df' <> [].
Proof.
  unfold derive. destruct (_ || _); [discriminate|].
  pose proof (length_total_series str_to_float cols m df) as Hlen.
  unfold total_series in *.
  set (picked := negb (PyStr.is_empty (total_col m))
                 && PyStr.mem (total_col m) cols) in *.
  assert (Hfinish : forall s : Series,
    List.length s = nrows df ->
    (let d := setitem (setitem df "total" s) "product"
                      (getitem (setitem df "total" s) (product_col m)) in
     let d := if PyStr.mem (quantity_col m) cols
              then setitem d "quantity"
                     (to_numeric str_to_float (getitem d (quantity_col m)))
              else d in
     let d := dropna ["product"; "total"] d in
     if empty d then inl NoValidRows else inr d) = inr df' ->
    exists full,
      df' = dropna ["product"; "total"] full /\
      getitem full "total" = s /\ nrows full = nrows df /\ rows df' <> []).
  { intros s Hs. cbv zeta.
    match goal with
    | |- (if empty (dropna _ ?f) then _ else _) = _ -> _ =>
        intros H; exists f
    end.
    destruct (empty _) eqn:Hempty; [discriminate|]. injection H as <-.
    split; [reflexivity|]. split; [|split].
    - destruct (PyStr.mem (quantity_col m) cols);
        rewrite ?getitem_setitem_other by discriminate;
        now apply getitem_setitem_same.
    - destruct (PyStr.mem (quantity_col m) cols);
        now rewrite ?nrows_setitem.
    - unfold empty in Hempty.
      destruct (rows (dropna _ _)); [discriminate|]. discriminate. }
  destruct picked.
  - apply Hfinish. exact Hlen.
  - destruct (_ && _); [|discriminate]. apply Hfinish. exact Hlen.
Qed.


(* ------------------------------------------------------------------ *)
(** ** Facts about whole numbers within 2^53 *)

Lemma Qabs_inject_Z (z : Z) : Qabs (inject_Z z) = inject_Z (Z.abs z).
Proof. reflexivity. Qed.

Lemma whole_sum (s : Series) :
  Forall whole_number s -> exists z, (series_sum s == inject_Z z)%Q.
Proof.
  induction 1 as [|c s [z Hz] _ [zs Hzs]]; simpl.
  - now exists 0.
  - exists (z + zs). rewrite Hz, Hzs, inject_Z_plus. reflexivity.
Qed.

Lemma series_sum_abs (s : Series) :
  (Qabs (series_sum s) <= qsum (map (fun c => Qabs (cell_value c)) s))%Q.
Proof.
  induction s as [|c s IH]; simpl.
  - discriminate.
  - eapply Qle_trans; [apply Qabs_triangle|]. lra.
Qed.

Lemma abs_sum_Subseq (l1 l2 : Series) :
  Subseq l1 l2 ->
  (qsum (map (fun c => Qabs (cell_value c)) l1)
   <= qsum (map (fun c => Qabs (cell_value c)) l2))%Q.
Proof.
  induction 1 as [|x l1 l2 H IH|x l1 l2 H IH]; simpl.
  - lra.
  - lra.
  - pose proof (Qabs_nonneg (cell_value x)). lra.
Qed.

Lemma exact_in_float64_Subseq (l1 l2 : Series) :
  Subseq l1 l2 -> exact_in_float64 l2 -> exact_in_float64 l1.
Proof.
  intros Hsub [Hwhole Hbound]. split.
  - now apply (Subseq_Forall _ _ _ Hsub).
  - eapply Qle_trans; [exact (abs_sum_Subseq _ _ Hsub) | exact Hbound].
Qed.

Lemma exact_sum (s : Series) :
  exact_in_float64 s -> float64_exact (series_sum s).
Proof.
  intros [Hwhole Hbound]. destruct (whole_sum s Hwhole) as [z Hz].
  exists z. split; [exact Hz|].
  assert (Habs : (Qabs (series_sum s) <= inject_Z (2 ^ 53))%Q)
    by (eapply Qle_trans; [apply series_sum_abs | exact Hbound]).
  rewrite Hz, Qabs_inject_Z in Habs.
  now rewrite <- Zle_Qle in Habs.
Qed.

(* ------------------------------------------------------------------ *)
(** ** Column mapping and validation *)

(** C1, on the code.  The upload has a header cell holding one blank, which
    normalises to the empty name; the form leaves total and price empty and
    quantity as blanks.  The product and total roles are guarded by
    [not product_col] and [total_col and ...], the quantity and price
    roles are not: both empty roles match the blank-named column, the
    total becomes that column squared (3 * 3 = 9) and the page renders a
    result where the revenue check should have failed. *)
Theorem blank_roles_match_blank_column :
  columns (normalize_columns Scenario.blank_header_upload)
  = ["product"; ""; "date"] /\
  total_col (read_mapping Scenario.blank_roles_form) = "" /\
  quantity_col (read_mapping Scenario.blank_roles_form) = "" /\
  price_col (read_mapping Scenario.blank_roles_form) = "" /\
  fst (Scenario.post Scenario.blank_header_upload Scenario.blank_roles_form)
  = RenderResult 9 (Str "A") ["2024-01"] [9%Q] ModeDate.
Proof. repeat split; reflexivity. Qed.

(** The guarded roles, for comparison: an empty product role is refused
    whatever the columns are, and an empty total role never selects a
    column. *)
Lemma empty_product_role_refused
    (str_to_float : string -> option Q) (cols : list string) (m : Mapping)
    (df : DataFrame) :
  product_col m = "" ->
  derive str_to_float cols m df = inl MissingProductColumn.
Proof. unfold derive. intros ->. reflexivity. Qed.

Lemma empty_total_role_unset
    (str_to_float : string -> option Q) (cols : list string) (m : Mapping)
    (df : DataFrame) :
  total_col m = "" ->
  PyStr.mem (quantity_col m) cols && PyStr.mem (price_col m) cols = false ->
  PyStr.is_empty (product_col m) || negb (PyStr.mem (product_col m) cols)
  = false ->
  derive str_to_float cols m df = inl MissingRevenueColumns.
Proof. unfold derive. intros -> -> ->. reflexivity. Qed.




(* ------------------------------------------------------------------ *)
(** ** The best product *)

(** C5, on the code.  The form leaves the quantity role empty, so no
    quantity is derived; but the upload has a column named quantity, and
    [index] asks whether "quantity" is among the frame's columns: the best
    product is picked by the sums of that raw column (B, 5 units) and not
    by the totals (A, 100). *)
Theorem raw_quantity_column_ranks_products :
  quantity_col (read_mapping Scenario.total_only_form) = "" /\
  PyStr.mem "" (columns (normalize_columns Scenario.unselected_quantity_upload))
  = false /\
  fst (Scenario.post Scenario.unselected_quantity_upload
                     Scenario.total_only_form)
  = RenderResult 110 (Str "B") ["2024-01"] [110%Q] ModeDate /\
  best_by (normalize_columns Scenario.unselected_quantity_upload) "total"
  = Some (Str "A").
Proof. repeat split; reflexivity. Qed.

(* ------------------------------------------------------------------ *)
(** ** The bucket values against the total revenue *)

(** C3 (as amended).  Take an upload whose revenue is derived from whole
    numbers adding up, in absolute value, to at most 2^53, so that float64
    multiplies and adds them without rounding.  Whenever [index] renders a
    result on it, the revenue, every value and the sum of the values are
    such whole numbers again, and the values add up to the totals of the
    rows the time bucketing kept, which are among the rows that survived
    derivation.  Hence: if every surviving total is non-negative the
    values sum to at most [total_revenue]; if no row was dropped during
    bucketing the two are equal; and if every surviving total is positive,
    equality holds only when no row was dropped. *)
Theorem bucket_values_within_revenue
    (str_to_float : string -> option Q)
    (to_datetime : Series -> list (option Timestamp))
    (env : Env) (w : World) (raw : DataFrame) (form : Form)
    (revenue : Q) (product : Cell) (labels : list string) (values : list Q)
    (mode : TimeMode) :
  exact_revenue_inputs str_to_float (columns (normalize_columns raw))
                       (read_mapping form) (normalize_columns raw) ->
  fst (process_data str_to_float to_datetime env w raw form)
  = RenderResult revenue product labels values mode ->
  exists df chart_df,
    derive str_to_float (columns (normalize_columns raw)) (read_mapping form)
           (normalize_columns raw) = inr df /\
    bucket str_to_float to_datetime (read_time_mode form)
           (columns (normalize_columns raw)) (read_mapping form) df
    = inr (chart_df, labels, values) /\
    revenue = series_sum (getitem df "total") /\
    float64_exact revenue /\
    Forall float64_exact values /\
    float64_exact (qsum values) /\
    (nrows chart_df <= nrows df)%nat /\
    (Forall (fun c => 0 <= cell_value c)%Q (getitem df "total") ->
     (qsum values <= revenue)%Q) /\
    (nrows chart_df = nrows df -> (qsum values == revenue)%Q) /\
    (Forall (fun c => 0 < cell_value c)%Q (getitem df "total") ->
     (qsum values == revenue)%Q -> nrows chart_df = nrows df).
Proof.
  intros [Hexact _] H.
  destruct (process_data_result _ _ _ _ _ _ _ _ _ _ _ H)
    as (df & chart_df & Hd & Hb & Hrev & _ & _).
  destruct (bucket_buckets _ _ _ _ _ _ _ Hb) as [Hsub Hsum].
  destruct (bucket_chart _ _ _ _ _ _ _ _ _ Hb) as (_ & Hv & _ & _).
  destruct (derive_inv _ _ _ _ _ Hd) as (full & Hdf & Htot & _ & _).
  assert (Hrows : forall d, nrows d = List.length (getitem d "total"))
    by (intros d; symmetry; apply length_getitem).
  assert (Hdf_exact : exact_in_float64 (getitem df "total")).
  { apply exact_in_float64_Subseq with (2 := Hexact).
    rewrite Hdf, <- Htot. apply getitem_dropna. }
  assert (Hchart_exact : exact_in_float64 (getitem chart_df "total"))
    by (now apply exact_in_float64_Subseq with (2 := Hdf_exact)).
  assert (Hsum_exact : float64_exact (qsum values)).
  { destruct (exact_sum _ Hchart_exact) as (z & Hz & Hb53).
    exists z. split; [now rewrite Hsum | exact Hb53]. }
  assert (Hvalues : Forall float64_exact values).
  { rewrite Hv. apply Forall_forall. intros v Hin.
    apply in_map_iff in Hin. destruct Hin as ([k v'] & <- & Hin). simpl.
    assert (Hgroup : exact_in_float64
              (map (fun r => row_get r "total")
                   (filter (fun r => key_of_row (read_time_mode form) r =? k)
                           (rows chart_df)))).
    { apply exact_in_float64_Subseq with (2 := Hchart_exact).
      unfold getitem. apply Subseq_map_filter. }
    destruct (exact_sum _ Hgroup) as (z & Hz & Hb53).
    exists z. split; [|exact Hb53].
    rewrite <- Hz.
    rewrite <- (group_value_sorted k v' _ (groupby_sum_sorted _ _) Hin).
    rewrite groupby_sum_value. unfold getitem. now rewrite key_sum_rows. }
  exists df, chart_df. subst revenue.
  split; [assumption|]. split; [assumption|]. split; [reflexivity|].
  split; [now apply exact_sum|]. split; [assumption|].
  split; [assumption|]. split; [|split; [|split]].
  - rewrite !Hrows. now apply Subseq_length.
  - intros Hpos. rewrite Hsum. now apply series_sum_Subseq_le.
  - rewrite !Hrows. intros Hlen. rewrite Hsum.
    now rewrite (Subseq_same_length _ _ Hsub Hlen).
  - rewrite !Hrows. intros Hpos Heq.
    apply series_sum_Subseq_eq; try assumption. now rewrite <- Hsum.
Qed.

Lemma bucket_values_within_revenue_witness :
  let str_to_float := Readers.read_decimal in
  let to_datetime := Readers.read_dates in
  let raw :=
    Scenario.months_upload (Str "A") (Str "B") (Str "A") (Str "B") (Num 13) in
  let form := Scenario.month_form in
  let revenue := 10%Q in
  let labels := ["Jan"; "Feb"] in
  let values := [1%Q; 2%Q] in
  exists df chart_df,     derive str_to_float (columns (normalize_columns raw)) (read_mapping form)            (normalize_columns raw) = inr df /\     bucket str_to_float to_datetime (read_time_mode form)            (columns (normalize_columns raw)) (read_mapping form) df     = inr (chart_df, labels, values) /\     revenue = series_sum (getitem df "total") /\     float64_exact revenue /\     Forall float64_exact values /\     float64_exact (qsum values) /\     (nrows chart_df <= nrows df)%nat /\     (Forall (fun c => 0 <= cell_value c)%Q (getitem df "total") ->      (qsum values <= revenue)%Q) /\     (nrows chart_df = nrows df -> (qsum values == revenue)%Q) /\     (Forall (fun c => 0 < cell_value c)%Q (getitem df "total") ->      (qsum values == revenue)%Q -> nrows chart_df = nrows df).
Proof.
  cbv zeta.
  assert (Hexact :
    exact_revenue_inputs Readers.read_decimal
      (columns (normalize_columns
         (Scenario.months_upload (Str "A") (Str "B") (Str "A") (Str "B")
                                 (Num 13))))
      (read_mapping Scenario.month_form)
      (normalize_columns
         (Scenario.months_upload (Str "A") (Str "B") (Str "A") (Str "B")
                                 (Num 13)))).
  { split; [split|].
    - repeat constructor;
        [exists 1 | exists 2 | exists 3 | exists 4]; reflexivity.
    - vm_compute. discriminate.
    - intros Hpath. discriminate Hpath. }
  apply (bucket_values_within_revenue
           Readers.read_decimal Readers.read_dates (Scenario.env WriteOk)
           Scenario.world
           (Scenario.months_upload (Str "A") (Str "B") (Str "A") (Str "B")
                                   (Num 13))
           Scenario.month_form 10 (Str "B") ["Jan"; "Feb"] [1%Q; 2%Q] ModeMonth
           Hexact).
  reflexivity.
Defined.

(** C3 as stated fails on a refund: the row with total -5 has no readable
    month, so it is left out of the buckets but counted in the revenue, and
    the values sum to 10 against a revenue of 5. *)
Lemma refund_exceeds_revenue :
  fst (Scenario.post Scenario.refund_upload Scenario.month_form)
  = RenderResult 5 (Str "B") ["Jan"] [10%Q] ModeMonth /\
  ~ (qsum [10%Q] <= 5)%Q.
Proof.
  split; [reflexivity|]. vm_compute. intros H. now apply H.
Qed.

(** Nor does equality tell that nothing was dropped: a dropped row with
    total 0 leaves the values equal to the revenue. *)
Lemma zero_total_dropped_unnoticed :
  fst (Scenario.post Scenario.free_sample_upload Scenario.month_form)
  = RenderResult 10 (Str "B") ["Jan"] [10%Q] ModeMonth /\
  (qsum [10%Q] == 10)%Q.
Proof. split; reflexivity. Qed.

(** And float64 rounding alone breaks it: with the totals 0.2, 0.3, 0.1
    for January, February, February and nothing dropped, the revenue is
    (0.2 + 0.3) + 0.1 = 0.6 while the values 0.2 and 0.3 + 0.1 sum to
    0.6000000000000001.  Hence the restriction to numbers float64 adds
    up exactly. *)
Lemma rounding_exceeds_revenue :
  let revenue :=
    Binary64.sum [Binary64.two_tenths; Binary64.three_tenths;
                  Binary64.one_tenth] in
  let values :=
    [Binary64.sum [Binary64.two_tenths];
     Binary64.sum [Binary64.three_tenths; Binary64.one_tenth]] in
  revenue = Binary64.six_tenths /\
  Binary64.sum values = Binary64.above_six_tenths /\
  PrimFloat.leb (Binary64.sum values) revenue = false.
Proof. repeat split; reflexivity. Qed.

(* ------------------------------------------------------------------ *)
(** ** Scenario B *)

(** C4.  Month mode on the months Jan, February, 13, bogus with totals
    1, 2, 3, 4, whatever the (present) products are and whether 13 arrives
    as a number or as text: all four rows survive derivation, the rows of
    13 and bogus are dropped from the chart, and the page shows labels
    Jan, Feb, values 1, 2 and a total revenue of 10. *)
Theorem scenario_b_months (p1 p2 p3 p4 thirteen : Cell) :
  notna p1 = true -> notna p2 = true -> notna p3 = true -> notna p4 = true ->
  thirteen = Num 13 \/ thirteen = Str "13" ->
  exists df chart_df best,
    derive Readers.read_decimal ["product"; "total"; "month"]
           (read_mapping Scenario.month_form)
           (normalize_columns (Scenario.months_upload p1 p2 p3 p4 thirteen))
    = inr df /\
    nrows df = 4%nat /\
    bucket Readers.read_decimal Readers.read_dates ModeMonth
           ["product"; "total"; "month"] (read_mapping Scenario.month_form) df
    = inr (chart_df, ["Jan"; "Feb"], [1%Q; 2%Q]) /\
    getitem chart_df "month" = [Str "Jan"; Str "February"] /\
    fst (Scenario.post (Scenario.months_upload p1 p2 p3 p4 thirteen)
                       Scenario.month_form)
    = RenderResult 10 best ["Jan"; "Feb"] [1%Q; 2%Q] ModeMonth.
Proof.
  intros H1 H2 H3 H4 H13.
  assert (Hbest : exists best, best_product
            (Scenario.months_upload p1 p2 p3 p4 thirteen) = Some best).
  { change (best_product (Scenario.months_upload p1 p2 p3 p4 thirteen))
      with (idxmax (groupby_sum cell_compare [p1; p2; p3; p4]
                                [Num 1; Num 2; Num 3; Num 4])).
    apply idxmax_some. apply groupby_sum_nonempty; discriminate. }
  destruct Hbest as [best Hbest].
  assert (Hd : derive Readers.read_decimal ["product"; "total"; "month"]
                 (read_mapping Scenario.month_form)
                 (normalize_columns
                    (Scenario.months_upload p1 p2 p3 p4 thirteen))
               = inr (Scenario.months_upload p1 p2 p3 p4 thirteen)).
  { vm_compute in H1, H2, H3, H4. vm_compute.
    rewrite H1, H2, H3, H4. reflexivity. }
  exists (Scenario.months_upload p1 p2 p3 p4 thirteen).
  exists (Scenario.frame ["product"; "total"; "month"; "month_num"]
            [[p1; Num 1; Str "Jan"; Num 1];
             [p2; Num 2; Str "February"; Num 2]]).
  exists best.
  assert (Hb : bucket Readers.read_decimal Readers.read_dates ModeMonth
                 ["product"; "total"; "month"]
                 (read_mapping Scenario.month_form)
                 (Scenario.months_upload p1 p2 p3 p4 thirteen)
               = inr (Scenario.frame
                        ["product"; "total"; "month"; "month_num"]
                        [[p1; Num 1; Str "Jan"; Num 1];
                         [p2; Num 2; Str "February"; Num 2]],
                      ["Jan"; "Feb"], [1%Q; 2%Q])).
  { destruct H13 as [-> | ->]; reflexivity. }
  repeat split; try assumption; try reflexivity.
  apply (process_data_render Readers.read_decimal Readers.read_dates
           (Scenario.env WriteOk) Scenario.world
           (Scenario.months_upload p1 p2 p3 p4 thirteen) Scenario.month_form
           _ _ _ _ _ Hd Hb Hbest).
Qed.

Lemma scenario_b_months_witness :
  exists df chart_df best,
    derive Readers.read_decimal ["product"; "total"; "month"]
           (read_mapping Scenario.month_form)
           (normalize_columns
              (Scenario.months_upload (Str "A") (Str "B") (Str "A") (Str "B")
                                      (Num 13)))
    = inr df /\
    nrows df = 4%nat /\
    bucket Readers.read_decimal Readers.read_dates ModeMonth
           ["product"; "total"; "month"] (read_mapping Scenario.month_form) df
    = inr (chart_df, ["Jan"; "Feb"], [1%Q; 2%Q]) /\
    getitem chart_df "month" = [Str "Jan"; Str "February"] /\
    fst (Scenario.post
           (Scenario.months_upload (Str "A") (Str "B") (Str "A") (Str "B")
                                   (Num 13))
           Scenario.month_form)
    = RenderResult 10 best ["Jan"; "Feb"] [1%Q; 2%Q] ModeMonth.
Proof.
  apply (scenario_b_months (Str "A") (Str "B") (Str "A") (Str "B") (Num 13));
    try reflexivity.
  left; reflexivity.
Defined.

(* ------------------------------------------------------------------ *)
(** ** Month mode: labels *)

(** C7.  In month mode every rendered label is [calendar.month_abbr] of a
    month number between 1 and 12, the month numbers behind the labels are
    strictly increasing (calendar order, each month once), and so every
    label is one of Jan..Dec. *)
Theorem month_labels_calendar_order
    (str_to_float : string -> option Q)
    (to_datetime : Series -> list (option Timestamp))
    (env : Env) (w : World) (raw : DataFrame) (form : Form)
    (revenue : Q) (product : Cell) (labels : list string) (values : list Q)
    (mode : TimeMode) :
  read_time_mode form = ModeMonth ->
  fst (process_data str_to_float to_datetime env w raw form)
  = RenderResult revenue product labels values mode ->
  exists months,
    labels = map month_abbr months /\
    StronglySorted Z.lt months /\
    Forall (fun m => 1 <= m <= 12) months /\
    Forall (fun l => In l month_abbr_table) labels.
Proof.
  intros Hmode H.
  destruct (process_data_result _ _ _ _ _ _ _ _ _ _ _ H)
    as (df & chart_df & _ & Hb & _).
  rewrite Hmode in Hb. unfold bucket in Hb.
  destruct (bucket_month _ _ _ _) as [e|[[cd ls] vs]] eqn:Hm; [discriminate|].
  destruct (_ || _); [discriminate|]. injection Hb as -> -> ->.
  unfold bucket_month in Hm. destruct (negb _); [discriminate|].
  unfold chart_of in Hm. injection Hm as Hcd Hl _.
  rewrite <- map_map in Hl.
  match type of Hl with
  | map _ ?ms = _ =>
      assert (Hrange : Forall (fun m => 1 <= m <= 12) ms); [|exists ms]
  end.
  { apply Forall_forall. intros k Hk. apply grouped_keys_in in Hk.
    apply in_map_iff in Hk. destruct Hk as (c & <- & Hc).
    unfold getitem, select in Hc; simpl in Hc.
    apply in_map_iff in Hc. destruct Hc as (r & <- & Hr).
    apply filter_In in Hr. destruct Hr as [_ Hr].
    destruct (row_get r "month_num") as [|q| | |]; try discriminate.
    apply month_in_range_bounds in Hr. simpl. now apply trunc_month. }
  repeat split.
  - now symmetry.
  - apply grouped_keys_sorted.
  - exact Hrange.
  - subst labels. apply Forall_forall. intros l Hl.
    apply in_map_iff in Hl. destruct Hl as (k & <- & Hk).
    apply month_abbr_in_table. rewrite Forall_forall in Hrange. now apply Hrange.
Qed.

Lemma month_labels_calendar_order_witness :
  exists months,
    ["Jan"; "Feb"] = map month_abbr months /\
    StronglySorted Z.lt months /\
    Forall (fun m => 1 <= m <= 12) months /\
    Forall (fun l => In l month_abbr_table) ["Jan"; "Feb"].
Proof.
  apply (month_labels_calendar_order
           Readers.read_decimal Readers.read_dates (Scenario.env WriteOk)
           Scenario.world
           (Scenario.months_upload (Str "B") (Str "A") (Str "A") (Str "B")
                                   (Str "13"))
           Scenario.month_form 10 (Str "A") ["Jan"; "Feb"] [1%Q; 2%Q] ModeMonth);
    reflexivity.
Defined.

(* ------------------------------------------------------------------ *)
(** ** Fractional month numbers *)

(** C9.  A month cell holding a number [q] with [1 <= q <= 12] passes the
    range filter and [astype(int)] cuts it down to the whole month
    [trunc q], which lies in 1..12 with [trunc q <= q < trunc q + 1].  A
    sale with such a month is bucketed there in month mode (label
    [month_abbr (trunc q)]) and in year_month mode (the period of that
    month); the text cell 3.5 lands in March. *)
Theorem fractional_month_truncated (q : Q) :
  (1 <= q)%Q -> (q <= 12)%Q ->
  month_in_range (Num q) = true /\
  1 <= trunc q <= 12 /\
  (inject_Z (trunc q) <= q < inject_Z (trunc q + 1))%Q /\
  fst (Scenario.post (Scenario.fraction_upload (Num q)) Scenario.month_form)
  = RenderResult 1 (Str "A") [month_abbr (trunc q)] [1%Q] ModeMonth /\
  fst (Scenario.post (Scenario.fraction_upload (Num q))
                     Scenario.year_month_form)
  = RenderResult 1 (Str "A") [period_label (period_ordinal 2024 (trunc q))]
                 [1%Q] ModeYearMonth /\
  fst (Scenario.post (Scenario.fraction_upload (Str "3.5")) Scenario.month_form)
  = RenderResult 1 (Str "A") ["Mar"] [1%Q] ModeMonth /\
  fst (Scenario.post (Scenario.fraction_upload (Str "3.5"))
                     Scenario.year_month_form)
  = RenderResult 1 (Str "A") ["2024-03"] [1%Q] ModeYearMonth.
Proof.
  intros H1 H12.
  assert (Hr : month_in_range (Num q) = true)
    by (apply month_in_range_bounds; auto).
  split; [exact Hr|].
  split; [now apply trunc_month|].
  split.
  { rewrite trunc_floor by lra. split; [apply Qfloor_le | apply Qlt_floor]. }
  split.
  { cbv -[month_in_range trunc month_abbr]. rewrite Hr.
    cbv -[month_in_range trunc month_abbr]. reflexivity. }
  split.
  { cbv -[month_in_range trunc period_label period_ordinal]. rewrite Hr.
    cbv -[month_in_range trunc period_label period_ordinal]. reflexivity. }
  split; reflexivity.
Qed.

Lemma fractional_month_truncated_witness :
  trunc (7 # 2) = 3 /\
  fst (Scenario.post (Scenario.fraction_upload (Num (7 # 2)))
                     Scenario.month_form)
  = RenderResult 1 (Str "A") ["Mar"] [1%Q] ModeMonth /\
  fst (Scenario.post (Scenario.fraction_upload (Num (7 # 2)))
                     Scenario.year_month_form)
  = RenderResult 1 (Str "A") ["2024-03"] [1%Q] ModeYearMonth.
Proof.
  assert (Hlow : (1 <= 7 # 2)%Q) by (vm_compute; discriminate).
  assert (Hhigh : (7 # 2 <= 12)%Q) by (vm_compute; discriminate).
  destruct (fractional_month_truncated (7 # 2) Hlow Hhigh)
    as (_ & _ & _ & Hmonth & Hym & _).
  split; [reflexivity|]. split; [exact Hmonth | exact Hym].
Defined.

(* ------------------------------------------------------------------ *)
(** ** The chart history *)

Lemma firstn_app_firstn {A : Type} (n : nat) (l m : list A) :
  firstn n (l ++ firstn n m) = firstn n (l ++ m).
Proof.
  rewrite !firstn_app, firstn_firstn. do 2 f_equal. lia.
Qed.

Lemma record_written (w : World) (r : Recording) :
  write_succeeds r ->
  chart_history_file (record w r)
  = Content (firstn 20 (entry_of r :: load_chart_history w)).
Proof.
  unfold write_succeeds, record, save_chart_to_history.
  intros ->. reflexivity.
Qed.

Lemma record_all_written (rs : list Recording) (r : Recording) (w : World) :
  Forall write_succeeds (r :: rs) ->
  load_chart_history (record_all (r :: rs) w)
  = firstn 20 (rev (map entry_of rs) ++ entry_of r :: load_chart_history w).
Proof.
  revert r w. induction rs as [|r' rs IH]; intros r w Hall.
  - inversion Hall as [|? ? Hr _]; subst. simpl.
    unfold load_chart_history at 1. now rewrite record_written.
  - inversion Hall as [|? ? Hr Hrs]; subst.
    change (record_all (r :: r' :: rs) w)
      with (record_all (r' :: rs) (record w r)).
    rewrite (IH r' (record w r) Hrs).
    unfold load_chart_history at 1. rewrite (record_written w r Hr).
    simpl map. simpl rev.
    rewrite <- (firstn_app_firstn 20 (rev (map entry_of rs) ++ [entry_of r'])
                  (entry_of r :: load_chart_history w)).
    now rewrite <- app_assoc.
Qed.

(** C8.  When the history file is written, it holds the new entry at the
    head followed by the previous entries, cut to 20.  So after a first
    recording and twenty more on an empty history, the history is exactly
    the twenty later entries, newest first: its length is 20 and the
    first-recorded entry is no longer in it (unless a later entry is equal
    to it). *)
Theorem history_prepended_and_capped
    (w : World) (first : Recording) (rest : list Recording) :
  Forall write_succeeds (first :: rest) ->
  (chart_history_file (record w first)
   = Content (firstn 20 (entry_of first :: load_chart_history w)) /\
   (List.length (load_chart_history (record w first)) <= 20)%nat) /\
  (load_chart_history w = [] -> List.length rest = 20%nat ->
   load_chart_history (record_all (first :: rest) w)
   = rev (map entry_of rest) /\
   List.length (load_chart_history (record_all (first :: rest) w)) = 20%nat /\
   (~ In (entry_of first) (map entry_of rest) ->
    ~ In (entry_of first)
         (load_chart_history (record_all (first :: rest) w)))).
Proof.
  intros Hall. inversion Hall as [|? ? Hfirst Hrest]; subst. split.
  - split; [now apply record_written|].
    unfold load_chart_history at 1. rewrite record_written by assumption.
    apply firstn_le_length.
  - intros Hempty Hlen.
    assert (Hfinal : load_chart_history (record_all (first :: rest) w)
                     = rev (map entry_of rest)).
    { rewrite record_all_written by assumption. rewrite Hempty.
      rewrite firstn_app.
      replace (20 - List.length (rev (map entry_of rest)))%nat with 0%nat
        by (rewrite length_rev, length_map; lia).
      rewrite firstn_all2 by (rewrite length_rev, length_map; lia).
      simpl. apply app_nil_r. }
    rewrite Hfinal. split; [reflexivity|]. split.
    + rewrite length_rev, length_map. exact Hlen.
    + intros Hnot Hin. apply Hnot. now apply in_rev.
Qed.

Lemma history_prepended_and_capped_witness :
  load_chart_history
    (record_all (map Scenario.recording (seq 1 21)) Scenario.world)
  = rev (map entry_of (map Scenario.recording (seq 2 20))) /\
  List.length
    (load_chart_history
       (record_all (map Scenario.recording (seq 1 21)) Scenario.world))
  = 20%nat /\
  ~ In (entry_of (Scenario.recording 1))
       (load_chart_history
          (record_all (map Scenario.recording (seq 1 21)) Scenario.world)).
Proof.
  assert (Hall : Forall write_succeeds
                        (Scenario.recording 1
                           :: map Scenario.recording (seq 2 20))).
  { apply Forall_forall. intros r Hr.
    change (In r (map Scenario.recording (seq 1 21))) in Hr.
    apply in_map_iff in Hr. destruct Hr as (n & <- & _). reflexivity. }
  destruct (history_prepended_and_capped Scenario.world
              (Scenario.recording 1) (map Scenario.recording (seq 2 20)) Hall)
    as [_ Hrun].
  destruct (Hrun eq_refl eq_refl) as (Hfinal & Hlen & Hgone).
  split; [exact Hfinal|]. split; [exact Hlen|].
  apply Hgone. intros Hin. apply in_map_iff in Hin.
  destruct Hin as (r & Heq & Hr). apply in_map_iff in Hr.
  destruct Hr as (n & <- & Hn). apply in_seq in Hn.
  apply (f_equal entry_revenue) in Heq. simpl in Heq.
  injection Heq as Heq. lia.
Defined.

(** C10.  Whatever happens to the write of the history file,
    [save_chart_to_history] returns the id of the new entry, and [index]
    renders what it renders when the write succeeds.  A failed write
    leaves the file as it was, or unreadable when the dump broke off. *)
Theorem history_write_failure_swallowed
    (str_to_float : string -> option Q)
    (to_datetime : Series -> list (option Timestamp))
    (uuid now stamp : string) (outcome config_write : WriteOutcome)
    (w : World) (raw : DataFrame) (form : Form)
    (labels : list string) (values : list Q) (revenue : Q) (product : Cell)
    (mode : TimeMode) (filename : string) :
  let env := mkEnv uuid now stamp outcome config_write in
  let saved :=
    save_chart_to_history env w labels values revenue product mode filename in
  fst saved = uuid /\
  chart_history_file (snd saved)
  = match outcome with
    | WriteOk =>
        Content (firstn 20
                   (mkHistoryEntry uuid now labels values revenue product mode
                                   filename :: load_chart_history w))
    | OpenFails => chart_history_file w
    | DumpFails => Garbled
    end /\
  fst (process_data str_to_float to_datetime env w raw form)
  = fst (process_data str_to_float to_datetime
                      (mkEnv uuid now stamp WriteOk config_write) w raw form).
Proof.
  simpl. split; [|split].
  - unfold save_chart_to_history.
    destruct (write_json _ _ _). reflexivity.
  - unfold save_chart_to_history; simpl. destruct outcome; reflexivity.
  - unfold process_data.
    destruct (derive _ _ _ _); [reflexivity|].
    destruct (bucket _ _ _ _ _ _) as [e|[[cd ls] vs]]; [reflexivity|].
    destruct (best_product _); [|reflexivity].
    do 2 destruct (save_chart_to_history _ _ _ _ _ _ _ _). reflexivity.
Qed.

(* ------------------------------------------------------------------ *)
(** ** Storage settings *)

(** C6, on the code.  The upload folder is posted as a path that cannot be
    created.  [apply_storage_paths] assigns both globals before it makes
    the directories, so when [os.makedirs] raises, [UPLOAD_FOLDER] and
    [OUTPUT_FOLDER] already hold the new paths and nothing puts the old
    ones back; only the configuration file keeps the previous state.  The
    [except] branch then builds the summary from the new globals, listing
    folders that were never made: the request ends in that exception
    instead of the error page. *)
Theorem failed_update_keeps_new_folders :
  let w := snd (Scenario.settings_post Scenario.world
                                       "/proc/uploads" "/srv/reports") in
  fst (Scenario.settings_post Scenario.world "/proc/uploads" "/srv/reports")
  = SettingsRaised
  /\ UPLOAD_FOLDER w = "/proc/uploads"
  /\ OUTPUT_FOLDER w = "/srv/reports"
  /\ UPLOAD_FOLDER Scenario.world = "/srv/app/uploads"
  /\ OUTPUT_FOLDER Scenario.world = "/srv/app/output"
  /\ PyStr.mem "/proc/uploads" (directories w) = false
  /\ PyStr.mem "/srv/reports" (directories w) = false
  /\ config_file w = config_file Scenario.world.
Proof. repeat split; reflexivity. Qed.

Lemma makedirs_folders (w : World) (path : string) :
  UPLOAD_FOLDER (fst (makedirs w path)) = UPLOAD_FOLDER w /\
  OUTPUT_FOLDER (fst (makedirs w path)) = OUTPUT_FOLDER w.
Proof.
  unfold makedirs. destruct (PyStr.mem path (directories w)); [now split|].
  destruct (PyStr.mem path (uncreatable w)); now split.
Qed.

Lemma apply_storage_paths_folders (w : World) (upload output : string) :
  UPLOAD_FOLDER (fst (apply_storage_paths w upload output)) = upload /\
  OUTPUT_FOLDER (fst (apply_storage_paths w upload output)) = output.
Proof.
  unfold apply_storage_paths.
  pose proof (makedirs_folders (set_folders w upload output)
                (UPLOAD_FOLDER (set_folders w upload output))) as [Hu Ho].
  destruct (makedirs (set_folders w upload output) _) as [w1 ok1].
  simpl in Hu, Ho. destruct ok1; [|now split].
  pose proof (makedirs_folders w1 (OUTPUT_FOLDER w1)) as [Hu2 Ho2].
  rewrite Hu2, Ho2. now split.
Qed.

(** The same whenever the update does not succeed, whether the error page
    is rendered or the handler raises: both globals are already set to the
    posted paths. *)
Lemma settings_failure_after_assignment
    (isabs : string -> bool) (abspath : string -> string)
    (join : string -> string -> string) (base : string)
    (round2 : Q -> Q) (listdir : string -> list DirEntry)
    (env : Env) (w : World) (upload output : option string) :
  match fst (settings_page isabs abspath join base round2 listdir
                           env w upload output) with
  | SettingsSuccess _ _ => True
  | _ =>
      UPLOAD_FOLDER (snd (settings_page isabs abspath join base round2 listdir
                                        env w upload output))
      = normalize_storage_path isabs abspath join base
          (Some (form_get upload "")) "uploads" /\
      OUTPUT_FOLDER (snd (settings_page isabs abspath join base round2 listdir
                                        env w upload output))
      = normalize_storage_path isabs abspath join base
          (Some (form_get output "")) "output"
  end.
Proof.
  unfold settings_page.
  pose proof (apply_storage_paths_folders w
    (normalize_storage_path isabs abspath join base
       (Some (form_get upload "")) "uploads")
    (normalize_storage_path isabs abspath join base
       (Some (form_get output "")) "output")) as [Hu Ho].
  destruct (apply_storage_paths w _ _) as [w1 ok1]. cbn [fst] in Hu, Ho.
  assert (Hfail : forall w',
    UPLOAD_FOLDER w' = UPLOAD_FOLDER w1 ->
    OUTPUT_FOLDER w' = OUTPUT_FOLDER w1 ->
    match fst (settings_failure abspath round2 listdir w') with
    | SettingsSuccess _ _ => True
    | _ =>
        UPLOAD_FOLDER (snd (settings_failure abspath round2 listdir w'))
        = UPLOAD_FOLDER w1 /\
        OUTPUT_FOLDER (snd (settings_failure abspath round2 listdir w'))
        = OUTPUT_FOLDER w1
    end).
  { intros w' Hu' Ho'. unfold settings_failure.
    destruct (build_settings_summary _ _ _ w'); simpl; now split. }
  rewrite <- Hu, <- Ho.
  destruct ok1; [|now apply Hfail].
  unfold save_storage_config.
  destruct (write_json _ _ _) as [file ok2].
  destruct ok2; [|now apply Hfail].
  destruct (build_settings_summary _ _ _ _) eqn:Hs; [exact I|].
  now apply Hfail.
Qed.

Lemma Forall2_fst_snd {A B : Type} (P : A -> B -> Prop) (l : list (A * B)) :
  Forall (fun ab => P (fst ab) (snd ab)) l ->
  Forall2 P (map fst l) (map snd l).
Proof. induction 1; simpl; constructor; assumption. Qed.

Lemma StronglySorted_lt_NoDup (l : list Z) :
  StronglySorted Z.lt l -> NoDup l.
Proof.
  induction 1 as [|k l Hs IH Hall]; constructor; [|assumption].
  intros Hin. rewrite Forall_forall in Hall. specialize (Hall k Hin). lia.
Qed.

(** X1.  What the chart shows, in every time mode: the labels are those of
    strictly increasing period keys; the value under a label is the sum of
    [total] over exactly the rows of the final [chart_df] with that key;
    and every such row has its key among the labels. *)
Theorem bucket_values_are_key_sums
    (str_to_float : string -> option Q)
    (to_datetime : Series -> list (option Timestamp))
    (mode : TimeMode) (cols : list string) (m : Mapping)
    (df chart_df : DataFrame) (labels : list string) (values : list Q) :
  bucket str_to_float to_datetime mode cols m df
  = inr (chart_df, labels, values) ->
  exists keys,
    StronglySorted Z.lt keys /\
    labels = map (label_of mode) keys /\
    Forall2 (fun key value =>
               (value == bucket_total mode key (rows chart_df))%Q)
            keys values /\
    (forall r, In r (rows chart_df) -> In (key_of_row mode r) keys).
Proof.
  intros H. destruct (bucket_chart _ _ _ _ _ _ _ _ _ H) as (Hl & Hv & _ & _).
  set (grouped := groupby_sum Z.compare (map (key_of_row mode) (rows chart_df))
                              (getitem chart_df "total")) in *.
  assert (Hsorted : StronglySorted Z.lt (map fst grouped))
    by apply groupby_sum_sorted.
  exists (map fst grouped). repeat split; try assumption.
  - subst values. apply Forall2_fst_snd. apply Forall_forall.
    intros [k v] Hin. simpl.
    rewrite <- (group_value_sorted k v grouped Hsorted Hin).
    unfold grouped. rewrite groupby_sum_value.
    unfold getitem, bucket_total. now rewrite key_sum_rows.
  - intros r Hr. apply groupby_sum_has_keys.
    + unfold getitem. now rewrite !length_map.
    + now apply in_map.
Qed.

Lemma bucket_values_are_key_sums_witness :
  exists keys,
    StronglySorted Z.lt keys /\
    ["Jan"; "Feb"] = map (label_of ModeMonth) keys /\
    Forall2 (fun key value =>
               (value == bucket_total ModeMonth key
                           (rows (Scenario.frame
                                    ["product"; "total"; "month"; "month_num"]
                                    [[Str "A"; Num 1; Str "Jan"; Num 1];
                                     [Str "B"; Num 2; Str "February"; Num 2]])))%Q)
            keys [1%Q; 2%Q] /\
    (forall r,
        In r (rows (Scenario.frame
                      ["product"; "total"; "month"; "month_num"]
                      [[Str "A"; Num 1; Str "Jan"; Num 1];
                       [Str "B"; Num 2; Str "February"; Num 2]])) ->
        In (key_of_row ModeMonth r) keys).
Proof.
  apply (bucket_values_are_key_sums
           Readers.read_decimal Readers.read_dates ModeMonth
           ["product"; "total"; "month"] (read_mapping Scenario.month_form)
           (Scenario.months_upload (Str "A") (Str "B") (Str "A") (Str "B")
                                   (Num 13))).
  reflexivity.
Defined.

(** X2.  A rendered result has at least one label, one value per label,
    and no more labels than rows that survived derivation. *)
Theorem rendered_chart_shape
    (str_to_float : string -> option Q)
    (to_datetime : Series -> list (option Timestamp))
    (env : Env) (w : World) (raw : DataFrame) (form : Form)
    (revenue : Q) (product : Cell) (labels : list string) (values : list Q)
    (mode : TimeMode) :
  fst (process_data str_to_float to_datetime env w raw form)
  = RenderResult revenue product labels values mode ->
  labels <> [] /\
  List.length values = List.length labels /\
  exists df,
    derive str_to_float (columns (normalize_columns raw)) (read_mapping form)
           (normalize_columns raw) = inr df /\
    (List.length labels <= nrows df)%nat.
Proof.
  intros H.
  destruct (process_data_result _ _ _ _ _ _ _ _ _ _ _ H)
    as (df & chart_df & Hd & Hb & _).
  destruct (bucket_chart _ _ _ _ _ _ _ _ _ Hb) as (Hl & Hv & _ & Hne).
  destruct (bucket_buckets _ _ _ _ _ _ _ Hb) as [Hsub _].
  split; [assumption|]. split.
  - rewrite Hl, Hv. now rewrite !length_map.
  - exists df. split; [assumption|].
    apply Subseq_length in Hsub. rewrite !length_getitem in Hsub.
    apply Nat.le_trans with (nrows chart_df); [|assumption].
    rewrite Hl, length_map.
    set (keys := map (key_of_row (read_time_mode form)) (rows chart_df)).
    replace (nrows chart_df) with (List.length keys)
      by (unfold keys, nrows; apply length_map).
    apply NoDup_incl_length.
    + apply StronglySorted_lt_NoDup. apply groupby_sum_sorted.
    + intros k Hk. now apply groupby_sum_keys in Hk.
Qed.

Lemma rendered_chart_shape_witness :
  ["Jan"; "Feb"] <> [] /\
  List.length [1%Q; 2%Q] = List.length ["Jan"; "Feb"] /\
  exists df,
    derive Readers.read_decimal
           (columns (normalize_columns
              (Scenario.months_upload (Str "A") (Str "B") (Str "A") (Str "B")
                                      (Num 13))))
           (read_mapping Scenario.month_form)
           (normalize_columns
              (Scenario.months_upload (Str "A") (Str "B") (Str "A") (Str "B")
                                      (Num 13))) = inr df /\
    (List.length ["Jan"; "Feb"] <= nrows df)%nat.
Proof.
  apply (rendered_chart_shape
           Readers.read_decimal Readers.read_dates (Scenario.env WriteOk)
           Scenario.world
           (Scenario.months_upload (Str "A") (Str "B") (Str "A") (Str "B")
                                   (Num 13))
           Scenario.month_form 10 (Str "B") ["Jan"; "Feb"] [1%Q; 2%Q] ModeMonth).
  reflexivity.
Defined.

Lemma month_abbr_injective (a b : Z) :
  1 <= a <= 12 -> 1 <= b <= 12 -> month_abbr a = month_abbr b -> a = b.
Proof.
  intros Ha Hb.
  assert (Ha' : a = 1 \/ a = 2 \/ a = 3 \/ a = 4 \/ a = 5 \/ a = 6 \/
                a = 7 \/ a = 8 \/ a = 9 \/ a = 10 \/ a = 11 \/ a = 12) by lia.
  assert (Hb' : b = 1 \/ b = 2 \/ b = 3 \/ b = 4 \/ b = 5 \/ b = 6 \/
                b = 7 \/ b = 8 \/ b = 9 \/ b = 10 \/ b = 11 \/ b = 12) by lia.
  clear Ha Hb.
  repeat (destruct Ha' as [->|Ha']);
    repeat (destruct Hb' as [->|Hb']); subst;
    vm_compute; intros H; try reflexivity; discriminate H.
Qed.

(** X3.  In month mode no label is rendered twice: rows of one calendar
    month share one bucket, whatever the spelling of the month. *)
Theorem month_labels_distinct
    (str_to_float : string -> option Q)
    (to_datetime : Series -> list (option Timestamp))
    (cols : list string) (m : Mapping)
    (df chart_df : DataFrame) (labels : list string) (values : list Q) :
  bucket str_to_float to_datetime ModeMonth cols m df
  = inr (chart_df, labels, values) ->
  NoDup labels.
Proof.
  intros H.
  destruct (bucket_chart _ _ _ _ _ _ _ _ _ H) as (Hl & _ & _ & _).
  assert (Hrange : forall r, In r (rows chart_df) ->
                             1 <= key_of_row ModeMonth r <= 12).
  { unfold bucket in H.
    destruct (bucket_month _ _ _ _) as [e|[[cd ls] vs]] eqn:Hm; [discriminate|].
    destruct (_ || _); [discriminate|]. injection H as -> _ _.
    unfold bucket_month in Hm. destruct (negb _); [discriminate|].
    unfold chart_of in Hm. injection Hm as Hcd _ _. subst chart_df.
    intros r Hr. unfold select in Hr; simpl in Hr.
    apply filter_In in Hr. destruct Hr as [_ Hr]. simpl.
    destruct (row_get r "month_num") as [|q| | |]; try discriminate.
    apply month_in_range_bounds in Hr. simpl. now apply trunc_month. }
  subst labels.
  set (grouped := groupby_sum Z.compare
                    (map (key_of_row ModeMonth) (rows chart_df))
                    (getitem chart_df "total")).
  assert (Hin : forall k, In k (map fst grouped) -> 1 <= k <= 12).
  { intros k Hk. apply groupby_sum_keys in Hk. apply in_map_iff in Hk.
    destruct Hk as (r & <- & Hr). now apply Hrange. }
  assert (Hnd : NoDup (map fst grouped))
    by (apply StronglySorted_lt_NoDup, groupby_sum_sorted).
  revert Hin Hnd. generalize (map fst grouped) as keys.
  induction keys as [|k keys IH]; simpl; intros Hin Hnd; constructor.
  - inversion Hnd as [|? ? Hnot _]; subst. intros Hk.
    apply in_map_iff in Hk. destruct Hk as (k' & Heq & Hk').
    apply month_abbr_injective in Heq; auto. now subst.
  - inversion Hnd; subst. apply IH; auto.
Qed.

Lemma month_labels_distinct_witness : NoDup ["Jan"; "Feb"].
Proof.
  apply (month_labels_distinct
           Readers.read_decimal Readers.read_dates
           ["product"; "total"; "month"] (read_mapping Scenario.month_form)
           (Scenario.months_upload (Str "A") (Str "B") (Str "A") (Str "B")
                                   (Num 13))
           (Scenario.frame ["product"; "total"; "month"; "month_num"]
                           [[Str "A"; Num 1; Str "Jan"; Num 1];
                            [Str "B"; Num 2; Str "February"; Num 2]])
           ["Jan"; "Feb"] [1%Q; 2%Q]).
  reflexivity.
Defined.


(* ------------------------------------------------------------------ *)
(** ** More on derivation: what survives *)

(** X4.  Every row that survives derivation has a product and a total
    that is a number; at least one row survives, and none is added. *)
Theorem derived_rows_complete
    (str_to_float : string -> option Q) (cols : list string) (m : Mapping)
    (df df' : DataFrame) :
  derive str_to_float cols m df = inr df' ->
  rows df' <> [] /\
  (nrows df' <= nrows df)%nat /\
  Forall (fun r => notna (row_get r "product") = true /\
                   exists q, row_get r "total" = Num q) (rows df').
Proof.
  intros H. destruct (derive_inv _ _ _ _ _ H) as (full & -> & Htot & Hn & Hne).
  split; [assumption|]. split.
  - rewrite <- Hn. unfold nrows, dropna; simpl. apply filter_length_le.
  - apply Forall_forall. intros r Hr. unfold dropna in Hr; simpl in Hr.
    apply filter_In in Hr. destruct Hr as [Hr Hc].
    unfold row_complete in Hc; simpl in Hc.
    apply andb_true_iff in Hc. destruct Hc as [Hp Hc].
    apply andb_true_iff in Hc. destruct Hc as [Ht _].
    split; [assumption|].
    assert (Hnum : numeric_or_nan (row_get r "total")).
    { pose proof (total_series_numeric str_to_float cols m df) as Hall.
      rewrite <- Htot in Hall. unfold getitem in Hall.
      rewrite Forall_map in Hall. rewrite Forall_forall in Hall.
      now apply Hall. }
    destruct Hnum as [Hnan|Hnum]; [|assumption].
    rewrite Hnan in Ht. discriminate.
Qed.

Lemma derived_rows_complete_witness :
  rows (Scenario.months_upload (Str "A") (Str "B") (Str "A") (Str "B") (Num 13))
  <> [] /\
  (nrows (Scenario.months_upload (Str "A") (Str "B") (Str "A") (Str "B")
                                 (Num 13))
   <= nrows (normalize_columns
               (Scenario.months_upload (Str "A") (Str "B") (Str "A") (Str "B")
                                       (Num 13))))%nat /\
  Forall (fun r => notna (row_get r "product") = true /\
                   exists q, row_get r "total" = Num q)
         (rows (Scenario.months_upload (Str "A") (Str "B") (Str "A") (Str "B")
                                       (Num 13))).
Proof.
  apply (derived_rows_complete
           Readers.read_decimal ["product"; "total"; "month"]
           (read_mapping Scenario.month_form)).
  reflexivity.
Defined.

(** X5.  The totals of the surviving rows are, in order, entries of the
    numeric cast of the total column when the total role is given and
    present, and of quantity times price otherwise: a selected total
    column takes precedence over quantity and price. *)
Theorem derived_totals_source
    (str_to_float : string -> option Q) (cols : list string) (m : Mapping)
    (df df' : DataFrame) :
  derive str_to_float cols m df = inr df' ->
  Subseq (getitem df' "total") (total_series str_to_float cols m df).
Proof.
  intros H. destruct (derive_inv _ _ _ _ _ H) as (full & -> & Htot & _ & _).
  rewrite <- Htot. apply getitem_dropna.
Qed.

Lemma derived_totals_source_witness :
  Subseq (getitem (Scenario.months_upload (Str "A") (Str "B") (Str "A")
                                          (Str "B") (Num 13)) "total")
         (total_series Readers.read_decimal ["product"; "total"; "month"]
            (read_mapping Scenario.month_form)
            (normalize_columns
               (Scenario.months_upload (Str "A") (Str "B") (Str "A") (Str "B")
                                       (Num 13)))).
Proof.
  apply (derived_totals_source
           Readers.read_decimal ["product"; "total"; "month"]
           (read_mapping Scenario.month_form)).
  reflexivity.
Defined.

(* ------------------------------------------------------------------ *)
(** ** More on the best product *)

Lemma idxmax_from_max {K : Type} (best : K * Q) (g : list (K * Q)) :
  exists v,
    In (idxmax_from best g, v) (best :: g) /\
    Forall (fun kv => (snd kv <= v)%Q) (best :: g).
Proof.
  revert best. induction g as [|kv g IH]; intros best; simpl.
  - exists (snd best). split.
    + left. now destruct best.
    + constructor; [lra | constructor].
  - destruct (Qle_bool (snd kv) (snd best)) eqn:Hle.
    + apply Qle_bool_iff in Hle.
      destruct (IH best) as (v & Hin & Hall). exists v. split.
      * destruct Hin as [Hin|Hin]; [left | right; right]; assumption.
      * inversion Hall as [|? ? Hb Hg]; subst.
        constructor; [assumption|]. constructor; [lra | assumption].
    + assert (Hlt : (snd best < snd kv)%Q).
      { apply Qnot_le_lt. intros Hc. apply Qle_bool_iff in Hc. congruence. }
      destruct (IH kv) as (v & Hin & Hall). exists v. split.
      * right. assumption.
      * inversion Hall as [|? ? Hk Hg]; subst.
        constructor; [lra|]. constructor; assumption.
Qed.

Lemma idxmax_max {K : Type} (g : list (K * Q)) (k : K) :
  idxmax g = Some k ->
  exists v, In (k, v) g /\ Forall (fun kv => (snd kv <= v)%Q) g.
Proof.
  destruct g as [|kv g]; simpl; [discriminate|].
  intros H. injection H as <-. apply idxmax_from_max.
Qed.

(** X6.  The best product is the product of a surviving row, and no
    product has a larger sum in the column it was ranked by: "quantity"
    when the frame has a column of that name with a value in it, "total"
    otherwise. *)
Theorem best_product_is_maximal (df : DataFrame) (best : Cell) :
  best_product df = Some best ->
  let col :=
    if PyStr.mem "quantity" (columns df) && any_notna (getitem df "quantity")
    then "quantity" else "total" in
  let sums :=
    groupby_sum cell_compare (getitem df "product") (getitem df col) in
  In best (getitem df "product") /\
  exists v, In (best, v) sums /\ Forall (fun kv => (snd kv <= v)%Q) sums.
Proof.
  unfold best_product. intros H. cbv zeta.
  destruct (_ && _); unfold best_by in H;
    destruct (summable _); try discriminate;
    destruct (idxmax_max _ _ H) as (v & Hin & Hall).
  all: split; [|eauto].
  all: eapply groupby_sum_keys; apply in_map_iff; exists (best, v); eauto.
Qed.

Lemma best_product_is_maximal_witness :
  In (Str "B")
     (getitem (normalize_columns Scenario.unselected_quantity_upload)
              "product").
Proof.
  apply (best_product_is_maximal
           (normalize_columns Scenario.unselected_quantity_upload) (Str "B")).
  reflexivity.
Defined.

(* ------------------------------------------------------------------ *)
(** ** Month names *)

(** X7.  A text cell that spells a month, abbreviated or in full and in
    any letter case, and that does not read as a number, parses to that
    month's number. *)
Theorem month_names_parse_in_any_case
    (str_to_float : string -> option Q) (s : string) (month : Z) :
  1 <= month <= 12 ->
  str_to_float s = None ->
  PyStr.lower s = PyStr.lower (month_abbr month) \/
  PyStr.lower s
  = PyStr.lower (nth (Z.to_nat (month - 1)) month_name_table "") ->
  parse_month_to_number str_to_float [Str s] = [Num (inject_Z month)].
Proof.
  intros Hm Hnum Hname.
  assert (Hm' : month = 1 \/ month = 2 \/ month = 3 \/ month = 4 \/
                month = 5 \/ month = 6 \/ month = 7 \/ month = 8 \/
                month = 9 \/ month = 10 \/ month = 11 \/ month = 12) by lia.
  unfold parse_month_to_number, to_numeric; simpl. rewrite Hnum. simpl.
  unfold find_month.
  repeat (destruct Hm' as [->|Hm']); try subst month;
    destruct Hname as [Hs|Hs]; rewrite Hs; reflexivity.
Qed.

Lemma month_names_parse_in_any_case_witness :
  parse_month_to_number Readers.read_decimal [Str "sEpTeMbEr"]
  = [Num (inject_Z 9)].
Proof.
  apply (month_names_parse_in_any_case Readers.read_decimal "sEpTeMbEr" 9).
  - lia.
  - reflexivity.
  - right. reflexivity.
Defined.

(* ------------------------------------------------------------------ *)
(** ** What a request leaves behind *)



(** X10.  Recording a chart hides nothing but what the cap evicts: for
    any other id, the lookup after a recorded save is the lookup among the
    19 newest entries of the previous history.  An entry in 20th place is
    no longer found. *)
Theorem older_charts_after_save
    (w : World) (r : Recording) (chart_id : string) :
  write_succeeds r ->
  chart_id <> env_uuid (rec_env r) ->
  find_chart chart_id (load_chart_history (record w r))
  = find_chart chart_id (firstn 19 (load_chart_history w)).
Proof.
  intros Hok Hne. unfold load_chart_history at 1.
  rewrite record_written by assumption. unfold find_chart. simpl.
  destruct (String.eqb_spec (env_uuid (rec_env r)) chart_id);
    [congruence | reflexivity].
Qed.

Lemma older_charts_after_save_witness :
  find_chart "1"
    (load_chart_history
       (record (record_all (map Scenario.recording (seq 1 20)) Scenario.world)
               (Scenario.recording 21)))
  = None.
Proof.
  rewrite (older_charts_after_save
             (record_all (map Scenario.recording (seq 1 20)) Scenario.world)
             (Scenario.recording 21) "1").
  - reflexivity.
  - reflexivity.
  - discriminate.
Defined.

(** X11.  Every chart listed by [api_chart_history] can be fetched: the
    detail lookup of a listed id finds an entry with that id, and it is
    the newest one carrying it.  An id that is not listed gets the 404
    answer. *)
Theorem listed_charts_can_be_fetched (w : World) (chart_id : string) :
  (In chart_id (map summary_id (api_chart_history w)) ->
   exists entry newer older,
     api_chart_history_detail w chart_id = inl entry /\
     entry_id entry = chart_id /\
     load_chart_history w = (newer ++ entry :: older)%list /\
     Forall (fun e => entry_id e <> chart_id) newer) /\
  (~ In chart_id (map summary_id (api_chart_history w)) ->
   api_chart_history_detail w chart_id = inr ("Chart not found", 404)).
Proof.
  unfold api_chart_history, api_chart_history_detail, find_chart.
  rewrite map_map; simpl.
  generalize (load_chart_history w) as h. intros h. split.
  - induction h as [|e h IH]; simpl; [contradiction|].
    intros Hin. destruct (String.eqb_spec (entry_id e) chart_id) as [Heq|Hneq].
    + exists e, [], h. repeat split; auto.
    + destruct Hin as [Hin|Hin]; [contradiction|].
      destruct (IH Hin) as (entry & newer & older & Hf & Hid & Hh & Hall).
      exists entry, (e :: newer), older.
      split; [exact Hf|]. split; [exact Hid|]. split.
      * simpl. now rewrite Hh.
      * constructor; assumption.
  - intros Hnot.
    destruct (find _ h) as [e|] eqn:Hf; [|reflexivity].
    apply find_some in Hf. destruct Hf as [Hin Heq].
    apply String.eqb_eq in Heq. exfalso. apply Hnot.
    apply in_map_iff. exists e. auto.
Qed.

Lemma listed_charts_can_be_fetched_witness :
  exists entry newer older,
    api_chart_history_detail
      (record_all (map Scenario.recording (seq 1 3)) Scenario.world) "2"
    = inl entry /\
    entry_id entry = "2" /\
    load_chart_history
      (record_all (map Scenario.recording (seq 1 3)) Scenario.world)
    = (newer ++ entry :: older)%list /\
    Forall (fun e => entry_id e <> "2") newer.
Proof.
  apply (proj1 (listed_charts_can_be_fetched
                  (record_all (map Scenario.recording (seq 1 3))
                              Scenario.world) "2")).
  vm_compute. tauto.
Defined.

(* ------------------------------------------------------------------ *)
(** ** Column suggestions *)

(** X12.  [guess_column] returns the first preferred name that is a
    column: every preferred name before it is not a column.  When no
    preferred name is a column it returns the empty string. *)
Theorem guess_column_first_match (columns preferred_names : list string) :
  (exists before after,
      preferred_names
      = (before ++ guess_column columns preferred_names :: after)%list /\
      PyStr.mem (guess_column columns preferred_names) columns = true /\
      Forall (fun name => PyStr.mem name columns = false) before) \/
  (guess_column columns preferred_names = "" /\
   Forall (fun name => PyStr.mem name columns = false) preferred_names).
Proof.
  induction preferred_names as [|name rest IH]; simpl.
  - right. split; [reflexivity | constructor].
  - destruct (PyStr.mem name columns) eqn:Hmem.
    + left. exists [], rest. repeat split; [assumption | constructor].
    + destruct IH as [(before & after & Heq & Hin & Hall)|[Heq Hall]].
      * left. exists (name :: before), after. split; [|split].
        -- simpl. now rewrite <- Heq.
        -- assumption.
        -- constructor; assumption.
      * right. split; [assumption | constructor; assumption].
Qed.

Lemma guess_column_choice (columns preferred_names : list string) :
  In (guess_column columns preferred_names) preferred_names \/
  guess_column columns preferred_names = "".
Proof.
  induction preferred_names as [|name rest IH]; simpl; [now right|].
  destruct (PyStr.mem name columns); [now left; left|].
  destruct IH; [left; right | right]; assumption.
Qed.

Lemma guess_column_present (columns preferred_names : list string) :
  guess_column columns preferred_names <> "" ->
  PyStr.mem (guess_column columns preferred_names) columns = true.
Proof.
  induction preferred_names as [|name rest IH]; simpl;
    [intros H; now contradiction H|].
  destruct (PyStr.mem name columns) eqn:Hmem; [intros _; exact Hmem | exact IH].
Qed.

Lemma guess_column_reads_back (columns preferred_names : list string) :
  Forall (fun name => read_role (Some name) = name) preferred_names ->
  read_role (Some (guess_column columns preferred_names))
  = guess_column columns preferred_names.
Proof.
  intros Hall.
  destruct (guess_column_choice columns preferred_names) as [Hin | ->];
    [|reflexivity].
  rewrite Forall_forall in Hall. now apply Hall.
Qed.

Lemma guess_defaults_read_back (mode : TimeMode) (columns : list string) :
  read_mapping (form_of_defaults mode (guess_defaults columns))
  = guess_defaults columns /\
  read_time_mode (form_of_defaults mode (guess_defaults columns)) = mode.
Proof.
  split; [|now destruct mode].
  unfold read_mapping, form_of_defaults, guess_defaults.
  cbn [form_product_col form_total_col form_quantity_col form_price_col
       form_date_col form_year_col form_month_col
       product_col total_col quantity_col price_col date_col year_col
       month_col].
  f_equal; apply guess_column_reads_back; repeat constructor.
Qed.

Lemma is_empty_false (s : string) : s <> "" -> PyStr.is_empty s = false.
Proof. destruct s; [contradiction | reflexivity]. Qed.

(** X13.  Posting the offered defaults back unchanged, in the offered
    date mode, never fails on the mapping when the upload has a product
    column, a total column (or quantity and price columns) and a date
    column under the preferred names: the only errors left are the ones
    about the rows themselves. *)
Theorem offered_defaults_pass_validation
    (str_to_float : string -> option Q)
    (to_datetime : Series -> list (option Timestamp))
    (env : Env) (w : World) (raw : DataFrame)
    (names : list string) (defaults : Mapping) (mode : TimeMode)
    (error : string) (cols : list string) (shown : Mapping)
    (selected : TimeMode) :
  read_columns raw = (names, defaults, mode) ->
  product_col defaults <> "" ->
  total_col defaults <> "" \/
  (quantity_col defaults <> "" /\ price_col defaults <> "") ->
  date_col defaults <> "" ->
  fst (process_data str_to_float to_datetime env w raw
                    (form_of_defaults mode defaults))
  = RenderError error cols shown selected ->
  error = NoValidRows \/ error = NoTimeValuesFound.
Proof.
  unfold read_columns.
  remember (columns (normalize_columns raw)) as names' eqn:Hnames.
  intros Hrc. injection Hrc as <- <- <-.
  intros Hp Hrev Hd.
  assert (Hpin : PyStr.mem (product_col (guess_defaults names')) names' = true)
    by (apply guess_column_present; exact Hp).
  assert (Hdin : PyStr.mem (date_col (guess_defaults names')) names' = true)
    by (apply guess_column_present; exact Hd).
  assert (Hrevin :
    negb (PyStr.is_empty (total_col (guess_defaults names')))
    && PyStr.mem (total_col (guess_defaults names')) names' = true \/
    PyStr.mem (quantity_col (guess_defaults names')) names'
    && PyStr.mem (price_col (guess_defaults names')) names' = true).
  { destruct Hrev as [Ht|[Hq Hpr]].
    - left. rewrite (is_empty_false _ Ht). cbn [negb andb].
      apply guess_column_present; exact Ht.
    - right. apply andb_true_iff. split; apply guess_column_present;
        assumption. }
  unfold process_data.
  destruct (guess_defaults_read_back ModeDate names') as [-> ->].
  rewrite <- Hnames.
  destruct (derive _ _ _ _) as [e|df] eqn:Hderive.
  - simpl. intros H. injection H as <- _ _ _. left.
    revert Hderive. unfold derive.
    rewrite (is_empty_false _ Hp), Hpin. cbn [negb orb].
    destruct Hrevin as [-> | Hqp].
    + destruct (PyStr.mem _ _); destruct (empty _); intros H;
        now inversion H.
    + destruct (negb _ && _); [|rewrite Hqp];
        destruct (PyStr.mem (quantity_col _) _); destruct (empty _);
        intros H; now inversion H.
  - unfold bucket, bucket_date. rewrite Hdin. cbn [negb].
    unfold chart_of.
    destruct (_ || _).
    + simpl. intros H. injection H as <- _ _ _. now right.
    + destruct (best_product df); [|discriminate].
      destruct (save_chart_to_history _ _ _ _ _ _ _ _). discriminate.
Qed.

Lemma offered_defaults_pass_validation_witness :
  NoValidRows = NoValidRows \/ NoValidRows = NoTimeValuesFound.
Proof.
  apply (offered_defaults_pass_validation
           Readers.read_decimal Readers.read_dates (Scenario.env WriteOk)
           Scenario.world
           (Scenario.frame ["Product"; " Total "; "Date"]
                           [[Str "A"; Str "n/a"; Str "2024-01-05"]])
           ["product"; "total"; "date"]
           (guess_defaults ["product"; "total"; "date"])
           ModeDate NoValidRows ["product"; "total"; "date"]
           (guess_defaults ["product"; "total"; "date"]) ModeDate).
  - reflexivity.
  - discriminate.
  - left. discriminate.
  - discriminate.
  - reflexivity.
Defined.

(* ------------------------------------------------------------------ *)
(** ** More on the storage settings *)

Lemma strip_all_space (s : string) :
  PyStr.all_space s = true -> PyStr.strip s = "".
Proof.
  intros H. unfold PyStr.strip. now rewrite (lstrip_all_space s H).
Qed.

(** X14.  A missing, empty or blank-only path falls back to the default
    folder under the application directory; neither [isabs] nor [abspath]
    is consulted. *)
Theorem blank_storage_path_falls_back
    (isabs : string -> bool) (abspath : string -> string)
    (join : string -> string -> string) (base : string)
    (path_value : option string) (fallback_name : string) :
  match path_value with
  | None => True
  | Some s => PyStr.all_space s = true
  end ->
  normalize_storage_path isabs abspath join base path_value fallback_name
  = join base fallback_name.
Proof.
  destruct path_value as [s|]; [|reflexivity].
  intros H. unfold normalize_storage_path.
  destruct (PyStr.is_empty s); [reflexivity|].
  now rewrite (strip_all_space s H).
Qed.

Lemma blank_storage_path_falls_back_witness :
  normalize_storage_path Readers.posix_isabs (fun p => p) Readers.posix_join
                         "/srv/app" (Some "   ") "uploads"
  = "/srv/app/uploads".
Proof.
  apply (blank_storage_path_falls_back
           Readers.posix_isabs (fun p => p) Readers.posix_join "/srv/app"
           (Some "   ") "uploads").
  reflexivity.
Defined.

Lemma mem_head (p : string) (l : list string) : PyStr.mem p (p :: l) = true.
Proof. unfold PyStr.mem; simpl. now rewrite String.eqb_refl. Qed.

Lemma mem_tail (p q : string) (l : list string) :
  PyStr.mem p l = true -> PyStr.mem p (q :: l) = true.
Proof. unfold PyStr.mem; simpl. intros ->. apply orb_true_r. Qed.

Lemma makedirs_ok (w w' : World) (path : string) :
  makedirs w path = (w', true) ->
  PyStr.mem path (directories w') = true /\
  (forall p, PyStr.mem p (directories w) = true ->
             PyStr.mem p (directories w') = true) /\
  UPLOAD_FOLDER w' = UPLOAD_FOLDER w /\
  OUTPUT_FOLDER w' = OUTPUT_FOLDER w /\
  config_file w' = config_file w /\
  chart_history_file w' = chart_history_file w.
Proof.
  unfold makedirs. destruct (PyStr.mem path (directories w)) eqn:Hin.
  - intros H. injection H as <-. auto 7.
  - destruct (PyStr.mem path (uncreatable w)); [discriminate|].
    intros H. injection H as <-. simpl. repeat split.
    + apply mem_head.
    + intros p. apply mem_tail.
Qed.

Lemma settings_success_state
    (isabs : string -> bool) (abspath : string -> string)
    (join : string -> string -> string) (base : string)
    (round2 : Q -> Q) (listdir : string -> list DirEntry)
    (env : Env) (w : World) (upload output : option string) (msg : string)
    (summary : SettingsSummary) :
  fst (settings_page isabs abspath join base round2 listdir
                     env w upload output)
  = SettingsSuccess msg summary ->
  let w' := snd (settings_page isabs abspath join base round2 listdir
                               env w upload output) in
  let upload_folder :=
    normalize_storage_path isabs abspath join base
                           (Some (form_get upload "")) "uploads" in
  let output_folder :=
    normalize_storage_path isabs abspath join base
                           (Some (form_get output "")) "output" in
  UPLOAD_FOLDER w' = upload_folder /\
  OUTPUT_FOLDER w' = output_folder /\
  config_file w' = Content (upload_folder, output_folder) /\
  PyStr.mem upload_folder (directories w') = true /\
  PyStr.mem output_folder (directories w') = true /\
  (forall p, PyStr.mem p (directories w) = true ->
             PyStr.mem p (directories w') = true) /\
  chart_history_file w' = chart_history_file w.
Proof.
  cbv zeta. unfold settings_page, apply_storage_paths.
  set (u := normalize_storage_path isabs abspath join base
              (Some (form_get upload "")) "uploads").
  set (o := normalize_storage_path isabs abspath join base
              (Some (form_get output "")) "output").
  cbn [UPLOAD_FOLDER OUTPUT_FOLDER set_folders].
  destruct (makedirs (set_folders w u o) u) as [w1 ok1] eqn:H1.
  destruct ok1;
    [|unfold settings_failure;
      destruct (build_settings_summary _ _ _ _); discriminate].
  apply makedirs_ok in H1.
  destruct H1 as (Hu & Hkeep1 & Hup1 & Hout1 & Hcfg1 & Hh1).
  cbn [UPLOAD_FOLDER OUTPUT_FOLDER config_file chart_history_file directories
       set_folders] in Hup1, Hout1, Hcfg1, Hh1, Hkeep1.
  rewrite Hout1.
  destruct (makedirs w1 o) as [w2 ok2] eqn:H2.
  destruct ok2;
    [|unfold settings_failure;
      destruct (build_settings_summary _ _ _ _); discriminate].
  apply makedirs_ok in H2.
  destruct H2 as (Ho & Hkeep2 & Hup2 & Hout2 & Hcfg2 & Hh2).
  unfold save_storage_config, settings_failure.
  destruct (env_config_write env); cbn [write_json];
    try (destruct (build_settings_summary _ _ _ _); discriminate).
  destruct (build_settings_summary _ _ _ _); [|discriminate].
  cbn [fst snd]. intros _.
  cbn [UPLOAD_FOLDER OUTPUT_FOLDER config_file chart_history_file directories
       set_config_file].
  split; [now rewrite Hup2, Hup1|].
  split; [now rewrite Hout2, Hout1|].
  split; [reflexivity|].
  split; [now apply Hkeep2|].
  split; [assumption|].
  split; [intros p Hp; apply Hkeep2, Hkeep1; exact Hp|].
  now rewrite Hh2, Hh1.
Qed.


(** X15.  When the settings page reports success, both folders exist,
    the globals and the configuration file hold the same normalised pair
    of paths, no directory known before has gone, and the chart history is
    untouched. *)
Theorem settings_success_is_complete
    (isabs : string -> bool) (abspath : string -> string)
    (join : string -> string -> string) (base : string)
    (round2 : Q -> Q) (listdir : string -> list DirEntry)
    (env : Env) (w : World) (upload output : option string) (msg : string)
    (summary : SettingsSummary) :
  fst (settings_page isabs abspath join base round2 listdir
                     env w upload output)
  = SettingsSuccess msg summary ->
  let w' := snd (settings_page isabs abspath join base round2 listdir
                               env w upload output) in
  let upload_folder :=
    normalize_storage_path isabs abspath join base
                           (Some (form_get upload "")) "uploads" in
  let output_folder :=
    normalize_storage_path isabs abspath join base
                           (Some (form_get output "")) "output" in
  UPLOAD_FOLDER w' = upload_folder /\
  OUTPUT_FOLDER w' = output_folder /\
  config_file w' = Content (upload_folder, output_folder) /\
  PyStr.mem upload_folder (directories w') = true /\
  PyStr.mem output_folder (directories w') = true /\
  (forall p, PyStr.mem p (directories w) = true ->
             PyStr.mem p (directories w') = true) /\
  chart_history_file w' = chart_history_file w.
Proof. apply settings_success_state. Qed.

Lemma settings_success_is_complete_witness :
  config_file (snd (Scenario.settings_post Scenario.world "" "reports"))
  = Content ("/srv/app/uploads", "/srv/app/reports").
Proof.
  apply (settings_success_is_complete
           Readers.posix_isabs (fun p => p) Readers.posix_join "/srv/app"
           Readers.round_cents (fun _ => [])
           (Scenario.env WriteOk) Scenario.world (Some "") (Some "reports")
           "Storage paths updated successfully."
           {| st_app_name := "AutoSales Dashboard";
              st_app_version := "1.0.0";
              st_environment := "Development";
              st_upload_folder := "/srv/app/uploads";
              st_output_folder := "/srv/app/reports";
              st_total_reports := 0;
              st_excel_count := 0;
              st_pdf_count := 0;
              st_upload_files_count := 0;
              st_latest_report := None |}).
  reflexivity.
Defined.

(** X16.  A saved configuration survives a restart: after a successful
    update whose normalised paths are clean (absolute, in [abspath] form,
    no blanks around), loading the configuration file gives the folders in
    force, and applying them at start-up succeeds and changes nothing. *)
Theorem saved_settings_survive_restart
    (isabs : string -> bool) (abspath : string -> string)
    (join : string -> string -> string) (base : string)
    (round2 : Q -> Q) (listdir : string -> list DirEntry)
    (env : Env) (w : World) (upload output : option string) (msg : string)
    (summary : SettingsSummary) :
  fst (settings_page isabs abspath join base round2 listdir
                     env w upload output)
  = SettingsSuccess msg summary ->
  clean_path isabs abspath
    (normalize_storage_path isabs abspath join base
                            (Some (form_get upload "")) "uploads") ->
  clean_path isabs abspath
    (normalize_storage_path isabs abspath join base
                            (Some (form_get output "")) "output") ->
  let w' := snd (settings_page isabs abspath join base round2 listdir
                               env w upload output) in
  load_storage_config isabs abspath join base w'
  = (UPLOAD_FOLDER w', OUTPUT_FOLDER w') /\
  startup isabs abspath join base w' = (w', true).
Proof.
  intros Hok Hcu Hco.
  destruct (settings_success_state _ _ _ _ _ _ _ _ _ _ _ _ Hok)
    as (Hu & Ho & Hcfg & Hud & Hod & _ & _).
  cbv zeta.
  set (w' := snd (settings_page isabs abspath join base round2 listdir
                               env w upload output)) in *.
  assert (Hclean : forall p fallback, clean_path isabs abspath p ->
            normalize_storage_path isabs abspath join base (Some p) fallback
            = p).
  { intros p fallback (Hne & Hstrip & Habs & Hnorm).
    unfold normalize_storage_path. rewrite Hstrip.
    destruct p; [contradiction|]. simpl. now rewrite Habs. }
  assert (Hload : load_storage_config isabs abspath join base w'
                  = (UPLOAD_FOLDER w', OUTPUT_FOLDER w')).
  { unfold load_storage_config. rewrite Hcfg, Hu, Ho.
    now rewrite (Hclean _ "uploads" Hcu), (Hclean _ "output" Hco). }
  split; [exact Hload|].
  unfold startup. rewrite Hload. cbn [fst snd].
  unfold apply_storage_paths, makedirs.
  assert (Hsame : set_folders w' (UPLOAD_FOLDER w') (OUTPUT_FOLDER w') = w')
    by (destruct w'; reflexivity).
  rewrite Hsame. rewrite Hu at 1. rewrite Hud. rewrite Ho at 1.
  now rewrite Hod.
Qed.

Lemma saved_settings_survive_restart_witness :
  startup Readers.posix_isabs (fun p => p) Readers.posix_join "/srv/app"
          (snd (Scenario.settings_post Scenario.world "/srv/data/in"
                                       "reports"))
  = (snd (Scenario.settings_post Scenario.world "/srv/data/in" "reports"),
     true).
Proof.
  apply (saved_settings_survive_restart
           Readers.posix_isabs (fun p => p) Readers.posix_join "/srv/app"
           Readers.round_cents (fun _ => [])
           (Scenario.env WriteOk) Scenario.world
           (Some "/srv/data/in") (Some "reports")
           "Storage paths updated successfully."
           {| st_app_name := "AutoSales Dashboard";
              st_app_version := "1.0.0";
              st_environment := "Development";
              st_upload_folder := "/srv/data/in";
              st_output_folder := "/srv/app/reports";
              st_total_reports := 0;
              st_excel_count := 0;
              st_pdf_count := 0;
              st_upload_files_count := 0;
              st_latest_report := None |}).
  - reflexivity.
  - repeat split; try reflexivity. discriminate.
  - repeat split; try reflexivity. discriminate.
Defined.

(* ------------------------------------------------------------------ *)
(** ** Reports *)

Lemma endswith_nil (suffix : string) :
  endswith "" suffix = String.eqb "" suffix.
Proof. unfold endswith. apply orb_false_r. Qed.

Lemma endswith_cons (c : ascii) (s suffix : string) :
  endswith (String c s) suffix
  = String.eqb (String c s) suffix || endswith s suffix.
Proof. reflexivity. Qed.

Lemma endswith_spec (s suffix : string) :
  endswith s suffix = true <-> exists stem, s = stem ++ suffix.
Proof.
  induction s as [|c s IH].
  - rewrite endswith_nil. split.
    + intros H. apply String.eqb_eq in H. subst. now exists "".
    + intros [stem H]. destruct stem; simpl in H.
      * subst. apply String.eqb_refl.
      * discriminate.
  - rewrite endswith_cons, orb_true_iff, IH. split.
    + intros [H|[stem H]].
      * apply String.eqb_eq in H. exists "". now rewrite H.
      * exists (String c stem). simpl. now rewrite H.
    + intros [stem H]. destruct stem as [|c' stem]; simpl in H.
      * left. rewrite <- H. apply String.eqb_refl.
      * right. injection H as _ H. now exists stem.
Qed.

Section ReportFacts.
Variable round2 : Q -> Q.

Lemma insert_report_perm (r : Report) (rs : list Report) :
  Permutation (insert_report r rs) (r :: rs).
Proof.
  induction rs as [|r' rs IH]; simpl; [reflexivity|].
  destruct (Qle_bool _ _); [reflexivity|].
  rewrite IH. apply perm_swap.
Qed.

Lemma sort_reports_perm (rs : list Report) :
  Permutation (sort_reports rs) rs.
Proof.
  induction rs as [|r rs IH]; simpl; [reflexivity|].
  rewrite insert_report_perm. now constructor.
Qed.

Lemma insert_report_sorted (r : Report) (rs : list Report) :
  StronglySorted newer_or_same rs ->
  StronglySorted newer_or_same (insert_report r rs).
Proof.
  induction rs as [|r' rs IH]; simpl; intros Hs.
  - repeat constructor.
  - inversion Hs as [|? ? Hs' Hall]; subst.
    destruct (Qle_bool _ _) eqn:Hle.
    + apply Qle_bool_iff in Hle. constructor; [assumption|].
      constructor; [exact Hle|].
      eapply Forall_impl; [|exact Hall]. unfold newer_or_same.
      intros x Hx. lra.
    + assert (Hlt : (report_updated_at r < report_updated_at r')%Q).
      { apply Qnot_le_lt. intros Hc. apply Qle_bool_iff in Hc. congruence. }
      constructor; [now apply IH|].
      apply Forall_forall. intros x Hx.
      apply (Permutation_in _ (insert_report_perm r rs)) in Hx.
      destruct Hx as [<-|Hx].
      * unfold newer_or_same. lra.
      * rewrite Forall_forall in Hall. now apply Hall.
Qed.

Lemma sort_reports_sorted (rs : list Report) :
  StronglySorted newer_or_same (sort_reports rs).
Proof.
  induction rs as [|r rs IH]; simpl; [constructor|].
  now apply insert_report_sorted.
Qed.

Lemma list_reports_perm (listing : list DirEntry) :
  Permutation
    (list_reports round2 listing)
    (map (report_of round2)
         (filter (fun e => is_report_name (de_name e) && de_isfile e)
                 listing)).
Proof. apply sort_reports_perm. Qed.

Lemma list_reports_sorted (listing : list DirEntry) :
  StronglySorted newer_or_same (list_reports round2 listing).
Proof. apply sort_reports_sorted. Qed.

Lemma listed_report_type (listing : list DirEntry) (r : Report) :
  In r (list_reports round2 listing) ->
  report_type r = "Excel" \/ report_type r = "PDF".
Proof.
  intros Hin. apply (Permutation_in _ (list_reports_perm listing)) in Hin.
  apply in_map_iff in Hin. destruct Hin as (e & <- & _).
  unfold report_of; simpl. destruct (endswith _ _); auto.
Qed.

(** X17.  [list_reports] is the newest-first arrangement of the reports
    of the listed entries that are regular files named *.xlsx or *.pdf:
    nothing is lost or repeated, and no report is followed by a more
    recently modified one. *)
Theorem list_reports_newest_first (listing : list DirEntry) :
  Permutation
    (list_reports round2 listing)
    (map (report_of round2)
         (filter (fun e => is_report_name (de_name e) && de_isfile e)
                 listing)) /\
  StronglySorted newer_or_same (list_reports round2 listing).
Proof.
  split; [apply list_reports_perm | apply list_reports_sorted].
Qed.

(** X18.  A file is listed exactly when it is a regular file whose name,
    lower-cased, ends in ".xlsx" or ".pdf"; it is typed "Excel" in the
    first case and "PDF" otherwise. *)
Theorem listed_reports_characterised (listing : list DirEntry) (r : Report) :
  In r (list_reports round2 listing) <->
  exists e,
    In e listing /\ de_isfile e = true /\
    report_name r = de_name e /\
    report_updated_at r = de_mtime e /\
    report_size_kb r = round2 (inject_Z (de_size e) / 1024) /\
    ((exists stem, PyStr.lower (de_name e) = stem ++ ".xlsx") /\
     report_type r = "Excel" \/
     ~ (exists stem, PyStr.lower (de_name e) = stem ++ ".xlsx") /\
     (exists stem, PyStr.lower (de_name e) = stem ++ ".pdf") /\
     report_type r = "PDF").
Proof.
  pose proof (list_reports_perm listing) as Hperm. split.
  - intros Hin. apply (Permutation_in _ Hperm) in Hin.
    apply in_map_iff in Hin. destruct Hin as (e & <- & He).
    apply filter_In in He. destruct He as [He Hkeep].
    apply andb_true_iff in Hkeep. destruct Hkeep as [Hname Hfile].
    exists e. repeat split; try assumption.
    unfold is_report_name in Hname. unfold report_of; simpl.
    destruct (endswith (PyStr.lower (de_name e)) ".xlsx") eqn:Hx.
    + left. split; [now apply endswith_spec | reflexivity].
    + right. simpl in Hname. split; [|split; [|reflexivity]].
      * intros Hc. apply endswith_spec in Hc. congruence.
      * now apply endswith_spec.
  - intros (e & He & Hfile & Hn & Hm & Hs & Htype).
    apply (Permutation_in _ (Permutation_sym Hperm)).
    apply in_map_iff. exists e. split.
    + destruct r as [n s u t]; simpl in *. subst n u s.
      unfold report_of. f_equal.
      destruct Htype as [[Hx ->]|(Hnx & _ & ->)].
      * apply endswith_spec in Hx. now rewrite Hx.
      * destruct (endswith _ ".xlsx") eqn:Hx; [|reflexivity].
        apply endswith_spec in Hx. contradiction.
    + apply filter_In. split; [assumption|].
      rewrite Hfile, andb_true_r. unfold is_report_name.
      apply orb_true_iff.
      destruct Htype as [[Hx _]|(_ & Hp & _)];
        [left | right]; now apply endswith_spec.
Qed.

Variable str_to_float : string -> option Q.
Variable read_excel : string -> string -> option DataFrame.

Lemma report_types_partition (rs : list Report) :
  Forall (fun r => report_type r = "Excel" \/ report_type r = "PDF") rs ->
  (List.length (filter (fun r => String.eqb (report_type r) "Excel") rs)
   + List.length (filter (fun r => String.eqb (report_type r) "PDF") rs)
   = List.length rs)%nat.
Proof.
  induction 1 as [|r rs [Ht|Ht] _ IH]; simpl; [reflexivity| |];
    rewrite Ht; simpl; lia.
Qed.

(** X19.  In the analytics summary the Excel and PDF counts add up to the
    total; the latest report is missing exactly when there is no report,
    and otherwise no report is more recently modified than it. *)
Theorem analytics_counts_add_up (w : World) (listing : list DirEntry) :
  let summary :=
    build_analytics_summary round2 str_to_float read_excel w listing in
  (an_excel_reports summary + an_pdf_reports summary
   = an_total_reports summary)%nat /\
  (an_latest_report summary = None <-> an_total_reports summary = 0%nat) /\
  (forall latest, an_latest_report summary = Some latest ->
     In latest (an_reports summary) /\
     Forall (fun r => (report_updated_at r <= report_updated_at latest)%Q)
            (an_reports summary)).
Proof.
  cbv zeta. unfold build_analytics_summary; simpl.
  pose proof (list_reports_sorted listing) as Hsorted.
  split; [|split].
  - apply report_types_partition. apply Forall_forall. intros r Hr.
    now apply (listed_report_type listing).
  - destruct (list_reports round2 listing); simpl; split; intros H;
      try reflexivity; discriminate.
  - intros latest Hl.
    destruct (list_reports round2 listing) as [|r rs]; [discriminate|].
    injection Hl as ->. split; [now left|].
    inversion Hsorted as [|? ? _ Hall]; subst.
    constructor; [lra | exact Hall].
Qed.
End ReportFacts.

(* ------------------------------------------------------------------ *)
(** ** Downloads *)

Lemma basename_no_slash (p : string) : has_slash (basename p) = false.
Proof.
  induction p as [|c p IH]; [reflexivity|].
  unfold basename; fold basename.
  destruct (has_slash (String c p)) eqn:Hs; assumption.
Qed.

Lemma basename_suffix (p : string) : exists dir, p = dir ++ basename p.
Proof.
  induction p as [|c p [dir IH]]; [now exists ""|].
  unfold basename; fold basename.
  destruct (has_slash (String c p)).
  - exists (String c dir). simpl. now rewrite <- IH.
  - now exists "".
Qed.

(** X20.  [download_report] only ever sends a regular file lying
    directly in the output folder: the name sent is the end of the
    requested path, has no slash in it, is neither empty nor "." nor "..",
    and names a regular file there; a requested name without a slash is
    used as it is.  Every other request is answered with 404. *)
Theorem download_stays_in_output_folder
    (file_exists is_file : string -> string -> bool) (w : World)
    (filename : string) :
  match download_report file_exists is_file w filename with
  | SendFile directory name =>
      directory = OUTPUT_FOLDER w /\
      has_slash name = false /\
      name <> "" /\ name <> "." /\ name <> ".." /\
      (exists dir, filename = dir ++ name) /\
      (has_slash filename = false -> name = filename) /\
      file_exists (OUTPUT_FOLDER w) name = true /\
      is_file (OUTPUT_FOLDER w) name = true
  | Abort404 =>
      file_exists (OUTPUT_FOLDER w) (basename filename) = false \/
      basename filename = "" \/ basename filename = "." \/
      basename filename = ".." \/
      is_file (OUTPUT_FOLDER w) (basename filename) = false
  end.
Proof.
  unfold download_report, send_from_directory.
  destruct (file_exists (OUTPUT_FOLDER w) (basename filename)) eqn:He;
    cbn [negb]; [|now left].
  destruct (String.eqb_spec (basename filename) "..") as [Hdd|Hdd];
    [now right; right; right; left|].
  destruct (String.eqb_spec (basename filename) "") as [He0|He0];
    cbn [orb]; [now right; left|].
  destruct (String.eqb_spec (basename filename) ".") as [Hd|Hd];
    [now right; right; left|].
  destruct (is_file (OUTPUT_FOLDER w) (basename filename)) eqn:Hf;
    [|now right; right; right; right].
  split; [reflexivity|]. split; [apply basename_no_slash|].
  repeat (split; [assumption|]).
  split; [apply basename_suffix|]. split; [|now split].
  intros Hs. destruct filename as [|c p]; [reflexivity|].
  unfold basename; fold basename. now rewrite Hs.
Qed.
